(** * AES block cipher with round-by-round trace (EECE455/aes_implementation.py)

    A shallow embedding of the [AES] class and of the [/encrypt] Flask route,
    followed by the properties of the specification that were checked
    against it.

    Conventions of the embedding:
    - a Python [int] is a [Z]; a byte is a [Z] in [0, 256);
    - [bytes], [bytearray] and Python lists of ints are [list Z];
    - a Python [str] is a [string] (characters above 127 stand for any
      non-ASCII character: they are neither hex digits nor whitespace);
    - a raising computation is a value of [result], carrying the exception
      class; [x <- c ;; k] sequences two computations;
    - the state matrix is mutated in place by the source; every snapshot put
      into the trace is a fresh matrix of strings built by [matrix_to_hex],
      and the state object itself is never stored, so the in-place updates
      are modelled by passing the updated matrix on. *)

From Stdlib Require Import String Ascii DecimalString ZArith List Bool Lia.
Import ListNotations.
Open Scope string_scope.
Open Scope list_scope.
Open Scope Z_scope.

(* ================================================================== *)
(** * Raising computations *)

Inductive exn : Type :=
| ValueError
| IndexError
| ZeroDivisionError.

Inductive result (A : Type) : Type :=
| Ok (a : A)
| Raise (e : exn).
Arguments Ok {A} a.
Arguments Raise {A} e.

Definition bind {A B : Type} (c : result A) (k : A -> result B) : result B :=
  match c with
  | Ok a => k a
  | Raise e => Raise e
  end.

Declare Scope result_scope.
Delimit Scope result_scope with result.
Notation "x <- c ;; k" := (bind c (fun x => k))
  (at level 61, c at next level, right associativity) : result_scope.
Notation "' pat <- c ;; k" := (bind c (fun x => match x with pat => k end))
  (at level 61, pat pattern, c at next level, right associativity) : result_scope.
Open Scope result_scope.

(* ================================================================== *)
(** * The Python primitives the source relies on *)

Module Py.

(** [range(a, b)] *)
Definition range (a b : Z) : list Z :=
  map (fun k => a + Z.of_nat k) (seq 0 (Z.to_nat (b - a))).

(** [for x in xs: s = body(x, s)], stopping at the first exception. *)
Fixpoint for_each {S : Type} (xs : list Z) (body : Z -> S -> result S) (s : S)
  : result S :=
  match xs with
  | [] => Ok s
  | x :: rest => s' <- body x s ;; for_each rest body s'
  end.

(** [[f(x) for x in xs]], raising as soon as one [f(x)] does. *)
Fixpoint list_comp {A B : Type} (f : A -> result B) (xs : list A)
  : result (list B) :=
  match xs with
  | [] => Ok []
  | x :: rest => y <- f x ;; ys <- list_comp f rest ;; Ok (y :: ys)
  end.

(** The position a subscript [i] denotes in a sequence of length [n]:
    negative subscripts count from the end. *)
Definition norm_index (n i : Z) : Z := if i <? 0 then i + n else i.

(** [l[i]] *)
Definition getitem {A : Type} (l : list A) (i : Z) : result A :=
  let k := norm_index (Z.of_nat (length l)) i in
  if (0 <=? k) && (k <? Z.of_nat (length l)) then
    match nth_error l (Z.to_nat k) with
    | Some x => Ok x
    | None => Raise IndexError
    end
  else Raise IndexError.

Fixpoint update {A : Type} (l : list A) (k : nat) (x : A) : list A :=
  match l, k with
  | [], _ => []
  | _ :: t, O => x :: t
  | h :: t, S k' => h :: update t k' x
  end.

(** [l[i] = x] on a list *)
Definition setitem {A : Type} (l : list A) (i : Z) (x : A) : result (list A) :=
  let k := norm_index (Z.of_nat (length l)) i in
  if (0 <=? k) && (k <? Z.of_nat (length l)) then Ok (update l (Z.to_nat k) x)
  else Raise IndexError.

(** [m[i][j]] and [m[i][j] = x] on a list of lists *)
Definition getitem2 {A : Type} (m : list (list A)) (i j : Z) : result A :=
  row <- getitem m i ;; getitem row j.

Definition setitem2 {A : Type} (m : list (list A)) (i j : Z) (x : A)
  : result (list (list A)) :=
  row <- getitem m i ;;
  row' <- setitem row j x ;;
  setitem m i row'.

(** [data[i] = x] on a [bytearray]: the value has to be a byte. *)
Definition bytearray_setitem (data : list Z) (i : Z) (x : Z) : result (list Z) :=
  let k := norm_index (Z.of_nat (length data)) i in
  if (0 <=? k) && (k <? Z.of_nat (length data)) then
    if (0 <=? x) && (x <? 256) then Ok (update data (Z.to_nat k) x)
    else Raise ValueError
  else Raise IndexError.

(** [a % b] and [a // b] (floor division, as [Z.modulo] and [Z.div]) *)
Definition mod_ (a b : Z) : result Z :=
  if b =? 0 then Raise ZeroDivisionError else Ok (a mod b).

Definition floordiv (a b : Z) : result Z :=
  if b =? 0 then Raise ZeroDivisionError else Ok (a / b).

(** ** Strings *)

Definition code (c : ascii) : Z := Z.of_N (N_of_ascii c).

(** [s.replace(c, '')] for a one-character [c] *)
Fixpoint remove_char (c : ascii) (s : string) : string :=
  match s with
  | EmptyString => EmptyString
  | String d rest =>
      if Ascii.eqb d c then remove_char c rest
      else String d (remove_char c rest)
  end.

(** [s.replace('0x', '')]: the occurrences are found from the left and do
    not overlap; what follows a deleted occurrence is scanned afresh. *)
Fixpoint remove_0x (s : string) : string :=
  match s with
  | EmptyString => EmptyString
  | String d rest =>
      match rest with
      | String e rest' =>
          if Ascii.eqb d "0" && Ascii.eqb e "x" then remove_0x rest'
          else String d (remove_0x rest)
      | EmptyString => String d EmptyString
      end
  end.

(** The value of a hexadecimal digit, [None] for any other character. *)
Definition hexval (c : ascii) : option Z :=
  let n := code c in
  if (48 <=? n) && (n <=? 57) then Some (n - 48)
  else if (97 <=? n) && (n <=? 102) then Some (n - 87)
  else if (65 <=? n) && (n <=? 70) then Some (n - 55)
  else None.

(** ASCII whitespace: space, [\t], [\n], [\v], [\f], [\r]. *)
Definition isspace (c : ascii) : bool :=
  let n := code c in
  (n =? 32) || ((9 <=? n) && (n <=? 13)).

(** [bytes.fromhex(s)]: "the string must contain two hexadecimal digits per
    byte, with ASCII whitespace being ignored" (all ASCII whitespace since
    Python 3.7; before, spaces only).  Whitespace is skipped in front of a
    pair of digits only; anything but a digit, at either place of a pair, is
    a [ValueError], and so is the end of the string after the first digit of
    a pair. *)
Fixpoint fromhex (s : string) : result (list Z) :=
  match s with
  | EmptyString => Ok []
  | String c rest =>
      if isspace c then fromhex rest
      else
        match hexval c with
        | None => Raise ValueError
        | Some top =>
            match rest with
            | EmptyString => Raise ValueError
            | String d rest' =>
                match hexval d with
                | None => Raise ValueError
                | Some bot =>
                    tl <- fromhex rest' ;; Ok ((16 * top + bot) :: tl)
                end
            end
        end
  end.

(** One hexadecimal digit, lower and upper case. *)
Definition hexdigit (upper : bool) (v : Z) : ascii :=
  if v <? 10 then ascii_of_N (Z.to_N (48 + v))
  else ascii_of_N (Z.to_N ((if upper then 55 else 87) + v)).

(** [data.hex()] *)
Fixpoint hex (data : list Z) : string :=
  match data with
  | [] => EmptyString
  | b :: rest =>
      String (hexdigit false (b / 16)) (String (hexdigit false (b mod 16)) (hex rest))
  end.

(** [s.upper()], on ASCII letters *)
Definition upper_char (c : ascii) : ascii :=
  let n := code c in
  if (97 <=? n) && (n <=? 122) then ascii_of_N (Z.to_N (n - 32)) else c.

Fixpoint upper (s : string) : string :=
  match s with
  | EmptyString => EmptyString
  | String c rest => String (upper_char c) (upper rest)
  end.

(** The digits of a positive number in base 16, upper case. *)
Fixpoint hexdigits (fuel : nat) (n : Z) (acc : string) : string :=
  match fuel with
  | O => acc
  | S fuel' =>
      let acc' := String (hexdigit true (n mod 16)) acc in
      if n / 16 =? 0 then acc' else hexdigits fuel' (n / 16) acc'
  end.

(** [f"{n:02X}"]: upper-case hexadecimal, zero-padded to two characters,
    the sign counting as one of them. *)
Definition format_02X (n : Z) : string :=
  let digits := hexdigits (S (Z.to_nat (Z.log2 (Z.abs n)))) (Z.abs n) EmptyString in
  if n <? 0 then String "-" digits
  else if Nat.ltb (String.length digits) 2 then String "0" digits
  else digits.

End Py.

(* ================================================================== *)
(** * class AES *)

Module AES.

(** The S-box, in decimal, sixteen entries a line as in the source. *)
Definition sbox : list Z :=
  [
     99; 124; 119; 123; 242; 107; 111; 197;  48;   1; 103;  43; 254; 215; 171; 118;
    202; 130; 201; 125; 250;  89;  71; 240; 173; 212; 162; 175; 156; 164; 114; 192;
    183; 253; 147;  38;  54;  63; 247; 204;  52; 165; 229; 241; 113; 216;  49;  21;
      4; 199;  35; 195;  24; 150;   5; 154;   7;  18; 128; 226; 235;  39; 178; 117;
      9; 131;  44;  26;  27; 110;  90; 160;  82;  59; 214; 179;  41; 227;  47; 132;
     83; 209;   0; 237;  32; 252; 177;  91; 106; 203; 190;  57;  74;  76;  88; 207;
    208; 239; 170; 251;  67;  77;  51; 133;  69; 249;   2; 127;  80;  60; 159; 168;
     81; 163;  64; 143; 146; 157;  56; 245; 188; 182; 218;  33;  16; 255; 243; 210;
    205;  12;  19; 236;  95; 151;  68;  23; 196; 167; 126;  61; 100;  93;  25; 115;
     96; 129;  79; 220;  34;  42; 144; 136;  70; 238; 184;  20; 222;  94;  11; 219;
    224;  50;  58;  10;  73;   6;  36;  92; 194; 211; 172;  98; 145; 149; 228; 121;
    231; 200;  55; 109; 141; 213;  78; 169; 108;  86; 244; 234; 101; 122; 174;   8;
    186; 120;  37;  46;  28; 166; 180; 198; 232; 221; 116;  31;  75; 189; 139; 138;
    112;  62; 181; 102;  72;   3; 246;  14;  97;  53;  87; 185; 134; 193;  29; 158;
    225; 248; 152;  17; 105; 217; 142; 148; 155;  30; 135; 233; 206;  85;  40; 223;
    140; 161; 137;  13; 191; 230;  66; 104;  65; 153;  45;  15; 176;  84; 187;  22
  ].

(** Round constants *)
Definition rcon : list Z :=
  [1; 2; 4; 8; 16; 32; 64; 128; 27; 54; 108; 216; 171; 77; 154; 47].

(** The instance attributes set by [__init__]. *)
Record t : Type := mk {
  key_size : Z;
  nk : Z;     (* number of 32-bit words in the key *)
  nr : Z      (* number of rounds *)
}.

(** [AES(key_size)] *)
Definition __init__ (key_size : Z) : t :=
  let nk := key_size / 32 in
  {| key_size := key_size; nk := nk; nr := nk + 6 |}.

(** The three replacements of [hex_to_bytes], before decoding. *)
Definition clean (hex_string : string) : string :=
  Py.remove_char "010" (Py.remove_0x (Py.remove_char " " hex_string)).

Definition hex_to_bytes (hex_string : string) : result (list Z) :=
  Py.fromhex (clean hex_string).

Definition bytes_to_hex (data : list Z) : string :=
  Py.upper (Py.hex data).

Definition bytes_to_matrix (data : list Z) : result (list (list Z)) :=
  Py.for_each (Py.range 0 4) (fun i matrix =>
    row <- Py.for_each (Py.range 0 4) (fun j row =>
             x <- Py.getitem data (4 * j + i) ;;
             Ok (row ++ [x])) [] ;;
    Ok (matrix ++ [row])) [].

Definition matrix_to_bytes (matrix : list (list Z)) : result (list Z) :=
  Py.for_each (Py.range 0 4) (fun i data =>
    Py.for_each (Py.range 0 4) (fun j data =>
      x <- Py.getitem2 matrix i j ;;
      Py.bytearray_setitem data (4 * j + i) x) data) (repeat 0 16).

Definition matrix_to_hex (matrix : list (list Z)) : list (list string) :=
  map (fun row => map Py.format_02X row) matrix.

(** The transformation of [temp] inside the second loop of
    [key_expansion], at word index [i]. *)
Definition expansion_temp (self : t) (i : Z) (temp : list Z) : result (list Z) :=
  r <- Py.mod_ i self.(nk) ;;
  if r =? 0 then
    (* RotWord *)
    t1 <- Py.getitem temp 1 ;;
    t2 <- Py.getitem temp 2 ;;
    t3 <- Py.getitem temp 3 ;;
    t0 <- Py.getitem temp 0 ;;
    (* SubWord *)
    temp <- Py.list_comp (Py.getitem sbox) [t1; t2; t3; t0] ;;
    (* XOR with round constant *)
    x <- Py.getitem temp 0 ;;
    q <- Py.floordiv i self.(nk) ;;
    rc <- Py.getitem rcon (q - 1) ;;
    Py.setitem temp 0 (Z.lxor x rc)
  else if (6 <? self.(nk)) && (r =? 4) then
    (* SubWord for AES-256 *)
    Py.list_comp (Py.getitem sbox) temp
  else Ok temp.

Definition key_expansion (self : t) (key : string) : result (list (list Z)) :=
  key_bytes <- hex_to_bytes key ;;
  (* Copy the key into the first nk words *)
  w <- Py.for_each (Py.range 0 self.(nk)) (fun i w =>
         b0 <- Py.getitem key_bytes (4 * i) ;;
         b1 <- Py.getitem key_bytes (4 * i + 1) ;;
         b2 <- Py.getitem key_bytes (4 * i + 2) ;;
         b3 <- Py.getitem key_bytes (4 * i + 3) ;;
         Ok (w ++ [[b0; b1; b2; b3]])) [] ;;
  (* Generate the remaining words *)
  Py.for_each (Py.range self.(nk) (4 * (self.(nr) + 1))) (fun i w =>
    temp <- Py.getitem w (i - 1) ;;
    temp <- expansion_temp self i temp ;;
    (* XOR with word nk positions back *)
    word <- Py.list_comp (fun j =>
              back <- Py.getitem w (i - self.(nk)) ;;
              a <- Py.getitem back j ;;
              b <- Py.getitem temp j ;;
              Ok (Z.lxor a b)) (Py.range 0 4) ;;
    Ok (w ++ [word])) w.

Definition add_round_key (state round_key : list (list Z))
  : result (list (list Z)) :=
  Py.for_each (Py.range 0 4) (fun i state =>
    Py.for_each (Py.range 0 4) (fun j state =>
      s <- Py.getitem2 state i j ;;
      k <- Py.getitem2 round_key i j ;;
      Py.setitem2 state i j (Z.lxor s k)) state) state.

Definition sub_bytes (state : list (list Z)) : result (list (list Z)) :=
  Py.for_each (Py.range 0 4) (fun i state =>
    Py.for_each (Py.range 0 4) (fun j state =>
      s <- Py.getitem2 state i j ;;
      v <- Py.getitem sbox s ;;
      Py.setitem2 state i j v) state) state.

Definition shift_rows (state : list (list Z)) : result (list (list Z)) :=
  (* Row 1: shift left by 1 *)
  a <- Py.getitem2 state 1 1 ;; b <- Py.getitem2 state 1 2 ;;
  c <- Py.getitem2 state 1 3 ;; d <- Py.getitem2 state 1 0 ;;
  state <- Py.setitem state 1 [a; b; c; d] ;;
  (* Row 2: shift left by 2 *)
  a <- Py.getitem2 state 2 2 ;; b <- Py.getitem2 state 2 3 ;;
  c <- Py.getitem2 state 2 0 ;; d <- Py.getitem2 state 2 1 ;;
  state <- Py.setitem state 2 [a; b; c; d] ;;
  (* Row 3: shift left by 3 *)
  a <- Py.getitem2 state 3 3 ;; b <- Py.getitem2 state 3 0 ;;
  c <- Py.getitem2 state 3 1 ;; d <- Py.getitem2 state 3 2 ;;
  Py.setitem state 3 [a; b; c; d].

(** One turn of the loop of [galois_mult], on the variables [(p, a, b)]. *)
Definition galois_step (st : Z * Z * Z) : Z * Z * Z :=
  let '(p, a, b) := st in
  let p := if Z.land b 1 =? 0 then p else Z.lxor p a in
  let hi_bit_set := Z.land a 128 in
  let a := Z.shiftl a 1 in
  let a := if hi_bit_set =? 0 then a else Z.lxor a 27 in
  let b := Z.shiftr b 1 in
  (p, a, b).

Definition galois_mult (a b : Z) : Z :=
  let '(p, _, _) := Nat.iter 8 galois_step (0, a, b) in
  Z.land p 255.

Definition mix_columns (state : list (list Z)) : result (list (list Z)) :=
  Py.for_each (Py.range 0 4) (fun i state =>
    s0 <- Py.getitem2 state 0 i ;;
    s1 <- Py.getitem2 state 1 i ;;
    s2 <- Py.getitem2 state 2 i ;;
    s3 <- Py.getitem2 state 3 i ;;
    state <- Py.setitem2 state 0 i
      (Z.lxor (Z.lxor (Z.lxor (galois_mult 2 s0) (galois_mult 3 s1)) s2) s3) ;;
    state <- Py.setitem2 state 1 i
      (Z.lxor (Z.lxor (Z.lxor s0 (galois_mult 2 s1)) (galois_mult 3 s2)) s3) ;;
    state <- Py.setitem2 state 2 i
      (Z.lxor (Z.lxor (Z.lxor s0 s1) (galois_mult 2 s2)) (galois_mult 3 s3)) ;;
    Py.setitem2 state 3 i
      (Z.lxor (Z.lxor (Z.lxor (galois_mult 3 s0) s1) s2) (galois_mult 2 s3)))
    state.

(** ** The trace *)

(** An entry of [results['rounds']] *)
Record step : Type := mk_step {
  round : Z;
  operation : string;
  state : list (list string)
}.

(** An entry of [results['expanded_key']] *)
Record round_key_entry : Type := mk_round_key_entry {
  rk_round : Z;
  rk_key : list (list string)
}.

(** The dictionary returned by [encrypt] *)
Record results : Type := mk_results {
  initial_state : list (list string);
  rounds : list step;
  expanded_key : list round_key_entry;
  final_ciphertext : string
}.

(** The round key of round [r] as a 4x4 matrix: word [j] becomes column
    [j].  The source writes this double loop out three times. *)
Definition round_key_matrix (round_keys : list (list (list Z))) (r : Z)
  : result (list (list Z)) :=
  Py.for_each (Py.range 0 4) (fun i matrix =>
    row <- Py.for_each (Py.range 0 4) (fun j row =>
             rk <- Py.getitem round_keys r ;;
             word <- Py.getitem rk j ;;
             x <- Py.getitem word i ;;
             Ok (row ++ [x])) [] ;;
    Ok (matrix ++ [row])) [].

(** The body of the loop over the main rounds, on the state and on
    [results['rounds']]. *)
Definition main_round (round_keys : list (list (list Z))) (round_num : Z)
    (acc : list (list Z) * list step) : result (list (list Z) * list step) :=
  let '(st, rs) := acc in
  st <- sub_bytes st ;;
  let rs := rs ++ [mk_step round_num "SubBytes" (matrix_to_hex st)] in
  st <- shift_rows st ;;
  let rs := rs ++ [mk_step round_num "ShiftRows" (matrix_to_hex st)] in
  st <- mix_columns st ;;
  let rs := rs ++ [mk_step round_num "MixColumns" (matrix_to_hex st)] in
  rkm <- round_key_matrix round_keys round_num ;;
  st <- add_round_key st rkm ;;
  let rs := rs ++ [mk_step round_num "AddRoundKey" (matrix_to_hex st)] in
  Ok (st, rs).

Definition encrypt (self : t) (plaintext key : string) : result results :=
  (* Convert inputs *)
  pt_bytes <- hex_to_bytes plaintext ;;
  key_bytes <- hex_to_bytes key ;;
  (* Initialize state *)
  st <- bytes_to_matrix pt_bytes ;;
  (* Expand key *)
  expanded <- key_expansion self key ;;
  (* Convert expanded key to round keys *)
  round_keys <- Py.for_each (Py.range 0 (self.(nr) + 1)) (fun i round_keys =>
      round_key <- Py.for_each (Py.range 0 4) (fun j round_key =>
                     word <- Py.getitem expanded (4 * i + j) ;;
                     Ok (round_key ++ [word])) [] ;;
      Ok (round_keys ++ [round_key])) [] ;;
  let initial := matrix_to_hex st in
  (* Store expanded key information *)
  ek <- Py.for_each (Py.range 0 (self.(nr) + 1)) (fun i ek =>
      rk <- Py.getitem round_keys i ;;
      Ok (ek ++ [mk_round_key_entry i (matrix_to_hex rk)])) [] ;;
  (* Initial round *)
  rkm <- round_key_matrix round_keys 0 ;;
  st <- add_round_key st rkm ;;
  let rs := [mk_step 0 "Initial AddRoundKey" (matrix_to_hex st)] in
  (* Main rounds *)
  ' (st, rs) <- Py.for_each (Py.range 1 self.(nr)) (main_round round_keys) (st, rs) ;;
  (* Final round *)
  st <- sub_bytes st ;;
  let rs := rs ++ [mk_step self.(nr) "SubBytes" (matrix_to_hex st)] in
  st <- shift_rows st ;;
  let rs := rs ++ [mk_step self.(nr) "ShiftRows" (matrix_to_hex st)] in
  rkm <- round_key_matrix round_keys self.(nr) ;;
  st <- add_round_key st rkm ;;
  let rs := rs ++ [mk_step self.(nr) "Final AddRoundKey" (matrix_to_hex st)] in
  (* Final ciphertext *)
  ciphertext <- matrix_to_bytes st ;;
  Ok {| initial_state := initial;
        rounds := rs;
        expanded_key := ek;
        final_ciphertext := bytes_to_hex ciphertext |}.

End AES.

(* ================================================================== *)
(** * The Flask route [/encrypt] *)

Module App.

(** What the route answers: the trace, a 400 with a message, or a 500 made
    from the exception caught by the handler. *)
Inductive response : Type :=
| Json200 (body : AES.results)
| Error400 (error : string)
| Error500 (e : exn).

(** [str(n)] *)
Definition str (n : Z) : string := DecimalString.NilZero.string_of_int (Z.to_int n).

(** [encrypt()], on the three fields of the request body, [key_size]
    already converted by [int]. *)
Definition encrypt (message key : string) (key_size : Z) : response :=
  if negb (Z.of_nat (String.length (Py.remove_0x (Py.remove_char " " message))) =? 32)
  then Error400 "Message must be exactly 16 bytes (32 hex characters)"
  else
    let expected_key_length := key_size / 4 in
    if negb (Z.of_nat (String.length (Py.remove_0x (Py.remove_char " " key)))
             =? expected_key_length)
    then Error400 ("Key must be exactly " ++ str (key_size / 8) ++ " bytes ("
                   ++ str expected_key_length ++ " hex characters) for AES-"
                   ++ str key_size)%string
    else
      match AES.encrypt (AES.__init__ key_size) message key with
      | Ok results => Json200 results
      | Raise e => Error500 e
      end.

End App.

(* ================================================================== *)
(** * Auxiliary notions for the statements *)

(** The computation ends in an exception. *)
Definition raises {A : Type} (c : result A) : Prop :=
  match c with
  | Ok _ => False
  | Raise _ => True
  end.

(** A byte value. *)
Definition byte (x : Z) : Prop := 0 <= x < 256.

(** Byte XOR, written infix in the statements. *)
Infix "(+)" := Z.lxor (at level 50, left associativity).

(** A sequence of bytes, as [bytes.fromhex] returns it. *)
Definition bytes (l : list Z) : Prop := Forall byte l.

(** A list of four items, and a 4x4 matrix. *)
Definition four {A : Type} (l : list A) : Prop := length l = 4%nat.

Definition shape44 (m : list (list Z)) : Prop := four m /\ Forall four m.

(** A state: a 4x4 matrix of bytes. *)
Definition wf_state (m : list (list Z)) : Prop := shape44 m /\ Forall bytes m.

(** The cell [m[r][c]] of a matrix, for the statements ([0] off the matrix). *)
Definition cell (m : list (list Z)) (r c : nat) : Z := nth c (nth r m []) 0.

(** The FIPS-197 example vector. *)
Definition fips_plaintext : string := "00112233445566778899aabbccddeeff".
Definition fips_key_128 : string := "000102030405060708090a0b0c0d0e0f".
Definition fips_key_192 : string := "000102030405060708090a0b0c0d0e0f1011121314151617".
Definition fips_key_256 : string :=
  "000102030405060708090a0b0c0d0e0f101112131415161718191a1b1c1d1e1f".

(** The bytes the first two decode to, and a state to convert back. *)
Definition fips_plaintext_bytes : list Z :=
  [0; 17; 34; 51; 68; 85; 102; 119; 136; 153; 170; 187; 204; 221; 238; 255].

Definition fips_key_128_bytes : list Z :=
  [0; 1; 2; 3; 4; 5; 6; 7; 8; 9; 10; 11; 12; 13; 14; 15].

Definition counting_state : list (list Z) :=
  [[1; 2; 3; 4]; [5; 6; 7; 8]; [9; 10; 11; 12]; [13; 14; 15; 16]].

(** The S-box as a function on bytes. *)
Definition SubByte (x : Z) : Z := nth (Z.to_nat x) AES.sbox 0.

(** Multiplication in GF(2^8) as the specification words it: the product of
    the two polynomials over GF(2), reduced modulo x^8 + x^4 + x^3 + x + 1
    (0x11B = 283).  It is compared with [AES.galois_mult] below. *)
Definition clmul (a b : Z) : Z :=
  fold_left (fun acc i => if Z.testbit b i then Z.lxor acc (Z.shiftl a i) else acc)
            (Py.range 0 8) 0.

Definition reduce_11B (p : Z) : Z :=
  fold_left (fun p d => if Z.testbit p d then Z.lxor p (Z.shiftl 283 (d - 8)) else p)
            [14; 13; 12; 11; 10; 9; 8] p.

Definition gf256_mul (a b : Z) : Z := reduce_11B (clmul a b).

(** A check over all the byte values, and over all the pairs of them. *)
Definition all_bytes (P : Z -> bool) : bool := forallb P (Py.range 0 256).

Definition all_byte_pairs (P : Z -> Z -> bool) : bool :=
  all_bytes (fun x => all_bytes (P x)).

(** The accumulator [p] of [galois_mult] after [n] turns of its loop. *)
Definition galois_acc (n : nat) (p a b : Z) : Z :=
  fst (fst (Nat.iter n AES.galois_step (p, a, b))).

(** A word of the key schedule: four bytes. *)
Definition word (t : list Z) : Prop := four t /\ bytes t.

(** The word of index [i] in a schedule (the empty list off the schedule). *)
Definition word_at (w : list (list Z)) (i : Z) : list Z := nth (Z.to_nat i) w [].

(** The operations of the key schedule, as the specification names them:
    RotWord rotates the four bytes left by one position, SubWord substitutes
    every byte by the S-box, [Rcon k] is the round constant of index [k], and
    two words are XORed byte by byte. *)
Definition RotWord (t : list Z) : list Z :=
  match t with
  | [a; b; c; d] => [b; c; d; a]
  | _ => t
  end.

Definition SubWord (t : list Z) : list Z := map SubByte t.

Definition Rcon (k : Z) : Z := nth (Z.to_nat k) AES.rcon 0.

Definition xor_first (t : list Z) (r : Z) : list Z :=
  match t with
  | x :: rest => (x (+) r) :: rest
  | [] => []
  end.

Definition xor_words (u v : list Z) : list Z :=
  map (fun p => fst p (+) snd p) (combine u v).

(** The value XORed into [schedule[i - Nk]], from [prev = schedule[i - 1]],
    as the specification gives it. *)
Definition schedule_temp (Nk i : Z) (prev : list Z) : list Z :=
  if i mod Nk =? 0 then xor_first (SubWord (RotWord prev)) (Rcon (i / Nk - 1))
  else if (6 <? Nk) && (i mod Nk =? 4) then SubWord prev
  else prev.

(** The word made of the key bytes [4i .. 4i+3]. *)
Definition key_word (key_bytes : list Z) (i : Z) : list Z :=
  [nth (Z.to_nat (4 * i)) key_bytes 0; nth (Z.to_nat (4 * i + 1)) key_bytes 0;
   nth (Z.to_nat (4 * i + 2)) key_bytes 0; nth (Z.to_nat (4 * i + 3)) key_bytes 0].

(** The invariant of the first loop of [key_expansion]: the key, four bytes
    a word. *)
Definition copied (key_bytes : list Z) (i : Z) (w : list (list Z)) : Prop :=
  Z.of_nat (length w) = i
  /\ Forall word w
  /\ forall k, 0 <= k < i -> word_at w k = key_word key_bytes k.

(** The invariant of its second loop: each further word from the two words
    it depends on. *)
Definition expanded (Nk : Z) (key_bytes : list Z) (i : Z) (w : list (list Z))
  : Prop :=
  Z.of_nat (length w) = i
  /\ Forall word w
  /\ (forall k, 0 <= k < Nk -> word_at w k = key_word key_bytes k)
  /\ forall k, Nk <= k < i ->
       word_at w k
       = xor_words (word_at w (k - Nk)) (schedule_temp Nk k (word_at w (k - 1))).

(** A round key as [encrypt] keeps it: four words. *)
Definition round_key_ok (rk : list (list Z)) : Prop := four rk /\ Forall word rk.

(** What a record of the trace says apart from the snapshot. *)
Definition label (s : AES.step) : Z * string := (AES.round s, AES.operation s).

(** The records of a main round, of the final round, and of a whole
    encryption of [Nr] rounds, in the order of the specification. *)
Definition main_labels (r : Z) : list (Z * string) :=
  [(r, "SubBytes"); (r, "ShiftRows"); (r, "MixColumns"); (r, "AddRoundKey")].

Definition final_labels (r : Z) : list (Z * string) :=
  [(r, "SubBytes"); (r, "ShiftRows"); (r, "Final AddRoundKey")].

Definition trace_labels (Nr : Z) : list (Z * string) :=
  (0, "Initial AddRoundKey")
    :: flat_map main_labels (Py.range 1 Nr) ++ final_labels Nr.

(** The tab character, which the three replacements leave in place. *)
Definition tab : ascii := "009"%char.

(** The characters of a string, and how many of them are hex digits. *)
Definition chars (s : string) : list ascii := list_ascii_of_string s.

Definition is_hexdigit (c : ascii) : bool :=
  match Py.hexval c with
  | Some _ => true
  | None => false
  end.

Fixpoint hexcount (s : string) : nat :=
  match s with
  | EmptyString => 0
  | String c rest => (if is_hexdigit c then 1 else 0) + hexcount rest
  end.

(** The number of occurrences of a character in a string. *)
Fixpoint count_char (c : ascii) (s : string) : nat :=
  match s with
  | EmptyString => 0
  | String d rest => (if Ascii.eqb d c then 1 else 0) + count_char c rest
  end.

(** Column [c] of [s'] is the product of the MDS matrix with column [c] of
    [s], for the multiplication [mul], as the specification writes it. *)
Definition mixed_column (mul : Z -> Z -> Z) (s s' : list (list Z)) (c : nat) : Prop :=
  let s0 := cell s 0 c in
  let s1 := cell s 1 c in
  let s2 := cell s 2 c in
  let s3 := cell s 3 c in
  cell s' 0 c = mul 2 s0 (+) mul 3 s1 (+) s2 (+) s3
  /\ cell s' 1 c = s0 (+) mul 2 s1 (+) mul 3 s2 (+) s3
  /\ cell s' 2 c = s0 (+) s1 (+) mul 2 s2 (+) mul 3 s3
  /\ cell s' 3 c = mul 3 s0 (+) s1 (+) s2 (+) mul 2 s3.

(** A state whose first column is the MixColumns example d4 bf 5d 30 of
    FIPS-197 and whose other columns are classical test columns. *)
Definition mix_example : list (list Z) :=
  [[212; 219; 242; 1]; [191; 19; 10; 1]; [93; 83; 34; 1]; [48; 69; 92; 1]].

(** The cleaning as the specification words it, "strips whitespace and 0x
    prefixes": all the whitespace is dropped, then "0x" in front. *)
Fixpoint strip_whitespace (s : string) : string :=
  match s with
  | EmptyString => EmptyString
  | String c rest =>
      if Py.isspace c then strip_whitespace rest
      else String c (strip_whitespace rest)
  end.

Definition strip_0x_prefix (s : string) : string :=
  match s with
  | String "0" (String "x" rest) => rest
  | _ => s
  end.

Definition cleaned_as_specified (s : string) : string :=
  strip_0x_prefix (strip_whitespace s).

(* ================================================================== *)
(** * Basic facts on raising computations and subscripts *)

Lemma bind_Ok {A B : Type} (c : result A) (k : A -> result B) (b : B) :
  bind c k = Ok b -> exists a, c = Ok a /\ k a = Ok b.
Proof.
  destruct c as [a|e]; simpl; intros H.
  - exists a; split; [reflexivity | exact H].
  - discriminate H.
Qed.

Lemma byte_test (x : Z) : byte x -> (0 <=? x) && (x <? 256) = true.
Proof.
  intros [H0 H1]. apply andb_true_intro; split.
  - now apply Z.leb_le.
  - now apply Z.ltb_lt.
Qed.

Lemma four_inv {A : Type} (l : list A) :
  four l -> exists a b c d, l = [a; b; c; d].
Proof.
  unfold four.
  destruct l as [|a [|b [|c [|d [|e l]]]]]; simpl; intros H; try discriminate H.
  now exists a, b, c, d.
Qed.

Lemma shape44_inv (m : list (list Z)) :
  shape44 m ->
  exists a0 a1 a2 a3 b0 b1 b2 b3 c0 c1 c2 c3 d0 d1 d2 d3,
    m = [[a0; a1; a2; a3]; [b0; b1; b2; b3]; [c0; c1; c2; c3]; [d0; d1; d2; d3]].
Proof.
  intros [Hm Hrows].
  destruct (four_inv _ Hm) as (ra & rb & rc & rd & ->).
  inversion_clear Hrows as [|? ? Ha Hrows1].
  inversion_clear Hrows1 as [|? ? Hb Hrows2].
  inversion_clear Hrows2 as [|? ? Hc Hrows3].
  inversion_clear Hrows3 as [|? ? Hd _].
  destruct (four_inv _ Ha) as (a0 & a1 & a2 & a3 & ->).
  destruct (four_inv _ Hb) as (b0 & b1 & b2 & b3 & ->).
  destruct (four_inv _ Hc) as (c0 & c1 & c2 & c3 & ->).
  destruct (four_inv _ Hd) as (d0 & d1 & d2 & d3 & ->).
  now exists a0, a1, a2, a3, b0, b1, b2, b3, c0, c1, c2, c3, d0, d1, d2, d3.
Qed.

Lemma shape44_intro (a0 a1 a2 a3 b0 b1 b2 b3 c0 c1 c2 c3 d0 d1 d2 d3 : Z) :
  shape44 [[a0; a1; a2; a3]; [b0; b1; b2; b3]; [c0; c1; c2; c3]; [d0; d1; d2; d3]].
Proof. split; [reflexivity | repeat constructor]. Qed.

Lemma wf_state_inv (m : list (list Z)) :
  wf_state m ->
  exists a0 a1 a2 a3 b0 b1 b2 b3 c0 c1 c2 c3 d0 d1 d2 d3,
    m = [[a0; a1; a2; a3]; [b0; b1; b2; b3]; [c0; c1; c2; c3]; [d0; d1; d2; d3]]
    /\ bytes [a0; a1; a2; a3; b0; b1; b2; b3; c0; c1; c2; c3; d0; d1; d2; d3].
Proof.
  intros [Hs Hb].
  destruct (shape44_inv _ Hs)
    as (a0 & a1 & a2 & a3 & b0 & b1 & b2 & b3 & c0 & c1 & c2 & c3
        & d0 & d1 & d2 & d3 & ->).
  exists a0, a1, a2, a3, b0, b1, b2, b3, c0, c1, c2, c3, d0, d1, d2, d3.
  split; [reflexivity|].
  inversion_clear Hb as [|? ? Ha Hb1].
  inversion_clear Hb1 as [|? ? Hb Hb2].
  inversion_clear Hb2 as [|? ? Hc Hb3].
  inversion_clear Hb3 as [|? ? Hd _].
  unfold bytes in *.
  repeat match goal with
         | H : Forall byte (_ :: _) |- _ => inversion_clear H
         end.
  repeat (apply Forall_cons; [assumption|]); apply Forall_nil.
Qed.

Lemma wf_state_intro (a0 a1 a2 a3 b0 b1 b2 b3 c0 c1 c2 c3 d0 d1 d2 d3 : Z) :
  bytes [a0; a1; a2; a3; b0; b1; b2; b3; c0; c1; c2; c3; d0; d1; d2; d3] ->
  wf_state [[a0; a1; a2; a3]; [b0; b1; b2; b3]; [c0; c1; c2; c3]; [d0; d1; d2; d3]].
Proof.
  intros H. split; [apply shape44_intro|].
  unfold bytes in *.
  repeat match goal with
         | H : Forall byte (_ :: _) |- _ => inversion_clear H
         end.
  repeat (apply Forall_cons;
          [repeat (apply Forall_cons; [assumption|]); apply Forall_nil|]).
  apply Forall_nil.
Qed.

(* ================================================================== *)
(** * The known-answer test *)

(** C1: for the FIPS-197 vector (AES-128), [encrypt] returns a trace whose
    [final_ciphertext] is the 32-character upper-case string
    69C4E0D86A7B0430D8CDB78070B4C55A. *)
Theorem encrypt_fips_197_aes128 :
  exists trace,
    AES.encrypt (AES.__init__ 128) fips_plaintext fips_key_128 = Ok trace
    /\ AES.final_ciphertext trace = "69C4E0D86A7B0430D8CDB78070B4C55A"
    /\ String.length (AES.final_ciphertext trace) = 32%nat.
Proof.
  eexists. split; [vm_compute; reflexivity|]. split; reflexivity.
Qed.

(** The analogous vectors for the two other key sizes. *)
Lemma encrypt_fips_197_aes192 :
  exists trace,
    AES.encrypt (AES.__init__ 192) fips_plaintext fips_key_192 = Ok trace
    /\ AES.final_ciphertext trace = "DDA97CA4864CDFE06EAF70A0EC0D7191".
Proof. eexists. split; [vm_compute; reflexivity | reflexivity]. Qed.

Lemma encrypt_fips_197_aes256 :
  exists trace,
    AES.encrypt (AES.__init__ 256) fips_plaintext fips_key_256 = Ok trace
    /\ AES.final_ciphertext trace = "8EA2B7CA516745BFEAFC49904B496089".
Proof. eexists. split; [vm_compute; reflexivity | reflexivity]. Qed.

(* ================================================================== *)
(** * The state matrix and the byte sequence *)

Lemma getitem_nth {A : Type} (l : list A) (i : Z) (x : A) :
  0 <= i -> nth_error l (Z.to_nat i) = Some x -> Py.getitem l i = Ok x.
Proof.
  intros Hi Hnth.
  assert (Hlt : (Z.to_nat i < length l)%nat)
    by (apply nth_error_Some; rewrite Hnth; discriminate).
  unfold Py.getitem, Py.norm_index.
  replace (i <? 0) with false by (symmetry; apply Z.ltb_ge; lia).
  replace (0 <=? i) with true by (symmetry; apply Z.leb_le; lia).
  replace (i <? Z.of_nat (length l)) with true by (symmetry; apply Z.ltb_lt; lia).
  simpl. now rewrite Hnth.
Qed.

Lemma bytes_to_matrix_16 (x0 x1 x2 x3 x4 x5 x6 x7 x8 x9 xa xb xc xd xe xf : Z)
    (rest : list Z) :
  AES.bytes_to_matrix
    (x0 :: x1 :: x2 :: x3 :: x4 :: x5 :: x6 :: x7 :: x8 :: x9 :: xa :: xb
        :: xc :: xd :: xe :: xf :: rest)
  = Ok [[x0; x4; x8; xc]; [x1; x5; x9; xd]; [x2; x6; xa; xe]; [x3; x7; xb; xf]].
Proof.
  unfold AES.bytes_to_matrix. change (Py.range 0 4) with [0; 1; 2; 3].
  cbn [Py.for_each].
  repeat (erewrite getitem_nth by (first [lia | reflexivity]); cbn [bind app]).
  reflexivity.
Qed.

Lemma bytearray_setitem_byte (data : list Z) (i x : Z) :
  byte x -> 0 <= i < Z.of_nat (length data) ->
  Py.bytearray_setitem data i x = Ok (Py.update data (Z.to_nat i) x).
Proof.
  intros Hx Hi. unfold Py.bytearray_setitem, Py.norm_index.
  replace (i <? 0) with false by (symmetry; apply Z.ltb_ge; lia).
  replace (0 <=? i) with true by (symmetry; apply Z.leb_le; lia).
  replace (i <? Z.of_nat (length data)) with true by (symmetry; apply Z.ltb_lt; lia).
  now rewrite (byte_test x Hx).
Qed.

(** Reading a cell of a matrix written out row by row. *)
Ltac read_cells :=
  unfold Py.getitem2;
  repeat (erewrite getitem_nth by (first [lia | reflexivity]); cbn [bind app]).

Lemma matrix_to_bytes_44 (a0 a1 a2 a3 b0 b1 b2 b3 c0 c1 c2 c3 d0 d1 d2 d3 : Z) :
  bytes [a0; a1; a2; a3; b0; b1; b2; b3; c0; c1; c2; c3; d0; d1; d2; d3] ->
  AES.matrix_to_bytes
    [[a0; a1; a2; a3]; [b0; b1; b2; b3]; [c0; c1; c2; c3]; [d0; d1; d2; d3]]
  = Ok [a0; b0; c0; d0; a1; b1; c1; d1; a2; b2; c2; d2; a3; b3; c3; d3].
Proof.
  intros H. unfold bytes in H.
  repeat match goal with
         | H : Forall byte (_ :: _) |- _ => inversion_clear H
         end.
  unfold AES.matrix_to_bytes. change (Py.range 0 4) with [0; 1; 2; 3].
  cbn [Py.for_each repeat].
  repeat (read_cells;
          rewrite bytearray_setitem_byte by (first [assumption | simpl; lia]);
          cbn [bind]; simpl Py.update).
  reflexivity.
Qed.

(* ================================================================== *)
(** * Round-trip between bytes and state *)

(** C7: under the column-major placement (the byte at offset [4*c + r] is the
    cell [r][c]), [bytes_to_matrix] and [matrix_to_bytes] are mutually
    inverse: a 16-byte sequence [b] is recovered from its matrix, and a 4x4
    byte matrix [s] is recovered from its bytes. *)
Theorem bytes_matrix_round_trip (b : list Z) (s : list (list Z)) :
  length b = 16%nat -> bytes b -> wf_state s ->
  (exists m,
      AES.bytes_to_matrix b = Ok m
      /\ (forall r c, (r < 4)%nat -> (c < 4)%nat -> cell m r c = nth (4 * c + r) b 0)
      /\ AES.matrix_to_bytes m = Ok b)
  /\ (exists d,
         AES.matrix_to_bytes s = Ok d
         /\ length d = 16%nat
         /\ (forall r c, (r < 4)%nat -> (c < 4)%nat -> nth (4 * c + r) d 0 = cell s r c)
         /\ AES.bytes_to_matrix d = Ok s).
Proof.
  intros Hlen Hb Hs. split.
  - do 16 (destruct b as [|? b]; [discriminate Hlen|]).
    destruct b; [|discriminate Hlen].
    eexists. split; [apply bytes_to_matrix_16|]. split.
    + intros r c Hr Hc.
      do 4 (destruct r as [|r]; [do 4 (destruct c as [|c]; [reflexivity|]); lia|]).
      lia.
    + apply matrix_to_bytes_44. unfold bytes in *.
      repeat match goal with
             | H : Forall byte (_ :: _) |- _ => inversion_clear H
             end.
      repeat (apply Forall_cons; [assumption|]); apply Forall_nil.
  - destruct (wf_state_inv _ Hs)
      as (a0 & a1 & a2 & a3 & b0 & b1 & b2 & b3 & c0 & c1 & c2 & c3
          & d0 & d1 & d2 & d3 & -> & Hcells).
    eexists. split; [apply matrix_to_bytes_44; exact Hcells|].
    split; [reflexivity|]. split.
    + intros r c Hr Hc.
      do 4 (destruct r as [|r]; [do 4 (destruct c as [|c]; [reflexivity|]); lia|]).
      lia.
    + apply bytes_to_matrix_16.
Qed.

Lemma bytes_matrix_round_trip_witness :
  (exists m,
      AES.bytes_to_matrix fips_plaintext_bytes = Ok m
      /\ (forall r c, (r < 4)%nat -> (c < 4)%nat ->
          cell m r c = nth (4 * c + r) fips_plaintext_bytes 0)
      /\ AES.matrix_to_bytes m = Ok fips_plaintext_bytes)
  /\ (exists d,
         AES.matrix_to_bytes counting_state = Ok d
         /\ length d = 16%nat
         /\ (forall r c, (r < 4)%nat -> (c < 4)%nat ->
             nth (4 * c + r) d 0
             = cell counting_state r c)
         /\ AES.bytes_to_matrix d
            = Ok counting_state).
Proof.
  apply bytes_matrix_round_trip.
  - reflexivity.
  - unfold bytes, byte. repeat (apply Forall_cons; [lia|]). apply Forall_nil.
  - apply wf_state_intro. unfold bytes, byte.
    repeat (apply Forall_cons; [lia|]). apply Forall_nil.
Defined.

(* ================================================================== *)
(** * Multiplication in GF(2^8) *)

Lemma in_range (a b x : Z) : a <= x < b -> In x (Py.range a b).
Proof.
  intros H. unfold Py.range. apply in_map_iff.
  exists (Z.to_nat (x - a)). split; [lia|]. apply in_seq. lia.
Qed.

Lemma range_in (a b x : Z) : In x (Py.range a b) -> a <= x < b.
Proof.
  unfold Py.range. intros H. apply in_map_iff in H.
  destruct H as (k & <- & Hk). apply in_seq in Hk. lia.
Qed.

Lemma all_bytes_spec (P : Z -> bool) :
  all_bytes P = true -> forall x, byte x -> P x = true.
Proof.
  unfold all_bytes. intros H x Hx.
  rewrite forallb_forall in H. apply H. now apply in_range.
Qed.

Lemma all_byte_pairs_spec (P : Z -> Z -> bool) :
  all_byte_pairs P = true -> forall x y, byte x -> byte y -> P x y = true.
Proof.
  unfold all_byte_pairs. intros H x y Hx Hy.
  apply (all_bytes_spec (P x)); [|exact Hy].
  now apply (all_bytes_spec (fun x => all_bytes (P x))).
Qed.

Lemma galois_mult_acc (a b : Z) :
  AES.galois_mult a b = Z.land (galois_acc 8 0 a b) 255.
Proof.
  unfold AES.galois_mult, galois_acc.
  now destruct (Nat.iter 8 AES.galois_step (0, a, b)) as [[p a'] b'].
Qed.

Lemma land_1_cases (b : Z) : Z.land b 1 = 0 \/ Z.land b 1 = 1.
Proof.
  assert (H : Z.land b 1 = b mod 2) by (apply (Z.land_ones b 1); lia).
  rewrite H. pose proof (Z.mod_pos_bound b 2 eq_refl). lia.
Qed.

Lemma land_lxor_distr_l (a b c : Z) :
  Z.land (Z.lxor a b) c = Z.lxor (Z.land a c) (Z.land b c).
Proof.
  apply Z.bits_inj'. intros n _.
  rewrite Z.lxor_spec, !Z.land_spec, Z.lxor_spec.
  now destruct (Z.testbit a n), (Z.testbit b n), (Z.testbit c n).
Qed.

Lemma galois_acc_succ (n : nat) (p a b : Z) :
  galois_acc (S n) p a b
  = galois_acc n (if Z.land b 1 =? 0 then p else Z.lxor p a)
      (if Z.land a 128 =? 0 then Z.shiftl a 1 else Z.lxor (Z.shiftl a 1) 27)
      (Z.shiftr b 1).
Proof. unfold galois_acc. now rewrite Nat.iter_succ_r. Qed.

(** The accumulator is affine in its initial value ... *)
Lemma galois_acc_start (n : nat) (p a b : Z) :
  galois_acc n p a b = Z.lxor p (galois_acc n 0 a b).
Proof.
  revert p a b. induction n as [|n IH]; intros p a b.
  - unfold galois_acc. simpl. now rewrite Z.lxor_0_r.
  - rewrite !galois_acc_succ.
    destruct (Z.land b 1 =? 0).
    + apply IH.
    + rewrite IH. rewrite (IH (Z.lxor 0 a)).
      rewrite Z.lxor_0_l. now rewrite Z.lxor_assoc.
Qed.

(** ... and additive in the multiplier. *)
Lemma galois_acc_lxor (n : nat) (a y z : Z) :
  galois_acc n 0 a (Z.lxor y z)
  = Z.lxor (galois_acc n 0 a y) (galois_acc n 0 a z).
Proof.
  revert a y z. induction n as [|n IH]; intros a y z.
  - reflexivity.
  - rewrite !galois_acc_succ.
    rewrite Z.shiftr_lxor, land_lxor_distr_l.
    set (a' := if Z.land a 128 =? 0 then Z.shiftl a 1 else Z.lxor (Z.shiftl a 1) 27).
    rewrite (galois_acc_start n (if Z.lxor _ _ =? 0 then _ else _)).
    rewrite (galois_acc_start n (if Z.land y 1 =? 0 then _ else _)).
    rewrite (galois_acc_start n (if Z.land z 1 =? 0 then _ else _)).
    rewrite IH.
    set (Y := galois_acc n 0 a' (Z.shiftr y 1)).
    set (W := galois_acc n 0 a' (Z.shiftr z 1)).
    rewrite Z.lxor_0_l.
    destruct (land_1_cases y) as [-> | ->], (land_1_cases z) as [-> | ->];
      cbn [Z.lxor Z.eqb Pos.lxor Pos.eqb];
      rewrite ?Z.lxor_0_l.
    all: apply Z.bits_inj'; intros k _; rewrite ?Z.lxor_spec;
      now destruct (Z.testbit a k), (Z.testbit Y k), (Z.testbit W k).
Qed.

Lemma land_255_byte (p : Z) : byte (Z.land p 255).
Proof.
  assert (H : Z.land p 255 = p mod 256) by (apply (Z.land_ones p 8); lia).
  rewrite H. unfold byte. apply Z.mod_pos_bound. lia.
Qed.

Lemma galois_mult_byte (a b : Z) : byte (AES.galois_mult a b).
Proof. rewrite galois_mult_acc. apply land_255_byte. Qed.

Lemma galois_mult_comm_checked :
  all_byte_pairs (fun x y => AES.galois_mult x y =? AES.galois_mult y x) = true.
Proof. vm_compute. reflexivity. Qed.

Lemma galois_mult_one_checked :
  all_bytes (fun x => AES.galois_mult x 1 =? x) = true.
Proof. vm_compute. reflexivity. Qed.

(** [galois_mult] computes the product in GF(2^8) modulo 0x11B. *)
Lemma galois_mult_gf256_checked :
  all_byte_pairs (fun x y => AES.galois_mult x y =? gf256_mul x y) = true.
Proof. vm_compute. reflexivity. Qed.

Lemma galois_mult_gf256 (x y : Z) :
  byte x -> byte y -> AES.galois_mult x y = gf256_mul x y.
Proof.
  intros Hx Hy. apply Z.eqb_eq.
  now apply (all_byte_pairs_spec _ galois_mult_gf256_checked).
Qed.

(** C8: on bytes, [galois_mult] has 1 as unit and 0 as absorbing element, is
    commutative and distributes over XOR, and its result is an 8-bit
    value. *)
Theorem galois_mult_algebra (x y z : Z) :
  byte x -> byte y -> byte z ->
  AES.galois_mult x 1 = x
  /\ AES.galois_mult x 0 = 0
  /\ AES.galois_mult x y = AES.galois_mult y x
  /\ AES.galois_mult x (Z.lxor y z)
     = Z.lxor (AES.galois_mult x y) (AES.galois_mult x z)
  /\ byte (AES.galois_mult x y).
Proof.
  intros Hx Hy Hz. split; [|split; [|split; [|split]]].
  - apply Z.eqb_eq. now apply (all_bytes_spec _ galois_mult_one_checked).
  - rewrite galois_mult_acc. rewrite !galois_acc_succ. reflexivity.
  - apply Z.eqb_eq. now apply (all_byte_pairs_spec _ galois_mult_comm_checked).
  - rewrite !galois_mult_acc, galois_acc_lxor. apply land_lxor_distr_l.
  - apply galois_mult_byte.
Qed.

Lemma galois_mult_algebra_witness :
  AES.galois_mult 87 1 = 87
  /\ AES.galois_mult 87 0 = 0
  /\ AES.galois_mult 87 131 = AES.galois_mult 131 87
  /\ AES.galois_mult 87 (Z.lxor 131 19)
     = Z.lxor (AES.galois_mult 87 131) (AES.galois_mult 87 19)
  /\ byte (AES.galois_mult 87 131).
Proof. apply galois_mult_algebra; unfold byte; lia. Defined.

(** The example of FIPS-197, section 4.2: {57} . {83} = {c1}. *)
Example galois_mult_57_83 : AES.galois_mult 87 131 = 193.
Proof. reflexivity. Qed.

(* ================================================================== *)
(** * The four transformations on a 4x4 state *)

Lemma sbox_length : length AES.sbox = 256%nat.
Proof. reflexivity. Qed.

Lemma sbox_bytes_checked :
  all_bytes (fun x => (0 <=? SubByte x) && (SubByte x <? 256)) = true.
Proof. vm_compute. reflexivity. Qed.

Lemma SubByte_byte (x : Z) : byte x -> byte (SubByte x).
Proof.
  intros Hx. pose proof (all_bytes_spec _ sbox_bytes_checked x Hx) as H.
  apply andb_prop in H. destruct H as [H0 H1].
  apply Z.leb_le in H0. apply Z.ltb_lt in H1. now split.
Qed.

Lemma getitem_sbox (x : Z) : byte x -> Py.getitem AES.sbox x = Ok (SubByte x).
Proof.
  intros [H0 H1]. apply getitem_nth; [exact H0|].
  unfold SubByte. apply nth_error_nth'. rewrite sbox_length. lia.
Qed.

Lemma lxor_byte (x y : Z) : byte x -> byte y -> byte (x (+) y).
Proof.
  unfold byte. intros [Hx0 Hx1] [Hy0 Hy1]. split.
  - apply Z.lxor_nonneg. lia.
  - destruct (Z.eq_dec (x (+) y) 0) as [->|Hne]; [lia|].
    assert (Hpos : 0 < x (+) y) by (pose proof (proj2 (Z.lxor_nonneg x y)); lia).
    apply (Z.log2_lt_pow2 _ 8 Hpos).
    eapply Z.le_lt_trans; [apply Z.log2_lxor; lia|].
    apply Z.max_lub_lt.
    + destruct (Z.eq_dec x 0) as [->|]; [reflexivity|].
      apply Z.log2_lt_pow2; lia.
    + destruct (Z.eq_dec y 0) as [->|]; [reflexivity|].
      apply Z.log2_lt_pow2; lia.
Qed.

Lemma setitem_update {A : Type} (l : list A) (i : Z) (x : A) :
  0 <= i < Z.of_nat (length l) ->
  Py.setitem l i x = Ok (Py.update l (Z.to_nat i) x).
Proof.
  intros Hi. unfold Py.setitem, Py.norm_index.
  replace (i <? 0) with false by (symmetry; apply Z.ltb_ge; lia).
  replace (0 <=? i) with true by (symmetry; apply Z.leb_le; lia).
  now replace (i <? Z.of_nat (length l)) with true by (symmetry; apply Z.ltb_lt; lia).
Qed.

(** Writing a cell of a matrix written out row by row. *)
Ltac write_cell :=
  unfold Py.setitem2;
  repeat (erewrite getitem_nth by (first [lia | reflexivity]); cbn [bind app]);
  repeat (rewrite setitem_update by (cbn [length]; lia); cbn [bind]);
  change (Z.to_nat 0) with 0%nat; change (Z.to_nat 1) with 1%nat;
  change (Z.to_nat 2) with 2%nat; change (Z.to_nat 3) with 3%nat;
  cbn [Py.update].

Section State44.

Variables a0 a1 a2 a3 b0 b1 b2 b3 c0 c1 c2 c3 d0 d1 d2 d3 : Z.

Let st : list (list Z) :=
  [[a0; a1; a2; a3]; [b0; b1; b2; b3]; [c0; c1; c2; c3]; [d0; d1; d2; d3]].

Lemma shift_rows_44 :
  AES.shift_rows st
  = Ok [[a0; a1; a2; a3]; [b1; b2; b3; b0]; [c2; c3; c0; c1]; [d3; d0; d1; d2]].
Proof. reflexivity. Qed.

Lemma mix_columns_44 :
  AES.mix_columns st
  = Ok [[AES.galois_mult 2 a0 (+) AES.galois_mult 3 b0 (+) c0 (+) d0;
         AES.galois_mult 2 a1 (+) AES.galois_mult 3 b1 (+) c1 (+) d1;
         AES.galois_mult 2 a2 (+) AES.galois_mult 3 b2 (+) c2 (+) d2;
         AES.galois_mult 2 a3 (+) AES.galois_mult 3 b3 (+) c3 (+) d3];
        [a0 (+) AES.galois_mult 2 b0 (+) AES.galois_mult 3 c0 (+) d0;
         a1 (+) AES.galois_mult 2 b1 (+) AES.galois_mult 3 c1 (+) d1;
         a2 (+) AES.galois_mult 2 b2 (+) AES.galois_mult 3 c2 (+) d2;
         a3 (+) AES.galois_mult 2 b3 (+) AES.galois_mult 3 c3 (+) d3];
        [a0 (+) b0 (+) AES.galois_mult 2 c0 (+) AES.galois_mult 3 d0;
         a1 (+) b1 (+) AES.galois_mult 2 c1 (+) AES.galois_mult 3 d1;
         a2 (+) b2 (+) AES.galois_mult 2 c2 (+) AES.galois_mult 3 d2;
         a3 (+) b3 (+) AES.galois_mult 2 c3 (+) AES.galois_mult 3 d3];
        [AES.galois_mult 3 a0 (+) b0 (+) c0 (+) AES.galois_mult 2 d0;
         AES.galois_mult 3 a1 (+) b1 (+) c1 (+) AES.galois_mult 2 d1;
         AES.galois_mult 3 a2 (+) b2 (+) c2 (+) AES.galois_mult 2 d2;
         AES.galois_mult 3 a3 (+) b3 (+) c3 (+) AES.galois_mult 2 d3]].
Proof.
  unfold AES.mix_columns, st. change (Py.range 0 4) with [0; 1; 2; 3].
  cbn [Py.for_each].
  repeat (read_cells; write_cell).
  reflexivity.
Qed.

Lemma sub_bytes_44 :
  bytes [a0; a1; a2; a3; b0; b1; b2; b3; c0; c1; c2; c3; d0; d1; d2; d3] ->
  AES.sub_bytes st
  = Ok [[SubByte a0; SubByte a1; SubByte a2; SubByte a3];
        [SubByte b0; SubByte b1; SubByte b2; SubByte b3];
        [SubByte c0; SubByte c1; SubByte c2; SubByte c3];
        [SubByte d0; SubByte d1; SubByte d2; SubByte d3]].
Proof.
  intros H. unfold bytes in H.
  repeat match goal with
         | H : Forall byte (_ :: _) |- _ => inversion_clear H
         end.
  unfold AES.sub_bytes, st. change (Py.range 0 4) with [0; 1; 2; 3].
  cbn [Py.for_each].
  repeat (read_cells; rewrite getitem_sbox by assumption; cbn [bind]; write_cell).
  reflexivity.
Qed.

Variables k0 k1 k2 k3 l0 l1 l2 l3 m0 m1 m2 m3 n0 n1 n2 n3 : Z.

Lemma add_round_key_44 :
  AES.add_round_key st
    [[k0; k1; k2; k3]; [l0; l1; l2; l3]; [m0; m1; m2; m3]; [n0; n1; n2; n3]]
  = Ok [[a0 (+) k0; a1 (+) k1; a2 (+) k2; a3 (+) k3];
        [b0 (+) l0; b1 (+) l1; b2 (+) l2; b3 (+) l3];
        [c0 (+) m0; c1 (+) m1; c2 (+) m2; c3 (+) m3];
        [d0 (+) n0; d1 (+) n1; d2 (+) n2; d3 (+) n3]].
Proof.
  unfold AES.add_round_key, st. change (Py.range 0 4) with [0; 1; 2; 3].
  cbn [Py.for_each].
  repeat (read_cells; write_cell).
  reflexivity.
Qed.

End State44.

(** Each transformation maps states to states. *)
Ltac state_cells H :=
  let a0 := fresh "a0" in let a1 := fresh "a1" in
  let a2 := fresh "a2" in let a3 := fresh "a3" in
  let b0 := fresh "b0" in let b1 := fresh "b1" in
  let b2 := fresh "b2" in let b3 := fresh "b3" in
  let c0 := fresh "c0" in let c1 := fresh "c1" in
  let c2 := fresh "c2" in let c3 := fresh "c3" in
  let d0 := fresh "d0" in let d1 := fresh "d1" in
  let d2 := fresh "d2" in let d3 := fresh "d3" in
  let Hc := fresh "Hcells" in
  destruct (wf_state_inv _ H)
    as (a0 & a1 & a2 & a3 & b0 & b1 & b2 & b3 & c0 & c1 & c2 & c3
        & d0 & d1 & d2 & d3 & -> & Hc).

Ltac cells_bytes :=
  unfold bytes in *;
  repeat match goal with
         | H : Forall byte (_ :: _) |- _ => inversion_clear H
         end;
  repeat (apply Forall_cons;
          [auto using SubByte_byte, lxor_byte, galois_mult_byte|]);
  apply Forall_nil.

Lemma sub_bytes_wf (s : list (list Z)) :
  wf_state s -> exists s', AES.sub_bytes s = Ok s' /\ wf_state s'.
Proof.
  intros H. state_cells H.
  eexists. split; [apply sub_bytes_44; exact Hcells|].
  apply wf_state_intro. cells_bytes.
Qed.

Lemma shift_rows_wf (s : list (list Z)) :
  wf_state s -> exists s', AES.shift_rows s = Ok s' /\ wf_state s'.
Proof.
  intros H. state_cells H.
  eexists. split; [apply shift_rows_44|].
  apply wf_state_intro. cells_bytes.
Qed.

Lemma mix_columns_wf (s : list (list Z)) :
  wf_state s -> exists s', AES.mix_columns s = Ok s' /\ wf_state s'.
Proof.
  intros H. state_cells H.
  eexists. split; [apply mix_columns_44|].
  apply wf_state_intro. cells_bytes.
Qed.

Lemma add_round_key_wf (s k : list (list Z)) :
  wf_state s -> wf_state k ->
  exists s', AES.add_round_key s k = Ok s' /\ wf_state s'.
Proof.
  intros H Hk. state_cells H. state_cells Hk.
  eexists. split; [apply add_round_key_44|].
  apply wf_state_intro. cells_bytes.
Qed.

(* ================================================================== *)
(** * MixColumns *)

(** C6: MixColumns replaces each column [s0, s1, s2, s3] of a state by
    [2.s0 + 3.s1 + s2 + s3], [s0 + 2.s1 + 3.s2 + s3], [s0 + s1 + 2.s2 + 3.s3],
    [3.s0 + s1 + s2 + 2.s3], where [.] is the multiplication of GF(2^8) modulo
    0x11B (which [galois_mult] computes) and [+] is byte XOR; each column is
    transformed independently of the others. *)
Theorem mix_columns_formula (s : list (list Z)) :
  wf_state s ->
  exists s',
    AES.mix_columns s = Ok s'
    /\ wf_state s'
    /\ forall c, (c < 4)%nat ->
         mixed_column gf256_mul s s' c /\ mixed_column AES.galois_mult s s' c.
Proof.
  intros H. state_cells H.
  eexists. split; [apply mix_columns_44|]. split.
  - apply wf_state_intro. cells_bytes.
  - assert (H2 : byte 2) by (unfold byte; lia).
    assert (H3 : byte 3) by (unfold byte; lia).
    unfold bytes in Hcells.
    repeat match goal with
           | H : Forall byte (_ :: _) |- _ => inversion_clear H
           end.
    intros c Hc. unfold mixed_column.
    do 4 (destruct c as [|c];
          [cbn [cell nth]; rewrite <- !galois_mult_gf256 by assumption;
           repeat split|]).
    lia.
Qed.

Lemma mix_columns_formula_witness :
  exists s',
    AES.mix_columns mix_example = Ok s'
    /\ wf_state s'
    /\ forall c, (c < 4)%nat ->
         mixed_column gf256_mul mix_example s' c
         /\ mixed_column AES.galois_mult mix_example s' c.
Proof.
  apply (mix_columns_formula mix_example).
  apply wf_state_intro. unfold bytes, byte.
  repeat (apply Forall_cons; [lia|]). apply Forall_nil.
Defined.

(** The columns d4 bf 5d 30, db 13 53 45, f2 0a 22 5c and 01 01 01 01 become
    04 66 81 e5, 8e 4d a1 bc, 9f dc 58 9d and 01 01 01 01. *)
Example mix_columns_example :
  AES.mix_columns mix_example
  = Ok [[4; 142; 159; 1]; [102; 77; 220; 1]; [129; 161; 88; 1]; [229; 188; 157; 1]].
Proof. reflexivity. Qed.

(* ================================================================== *)
(** * Loops over a range *)

Lemma range_nil (a b : Z) : b <= a -> Py.range a b = [].
Proof.
  intros H. unfold Py.range.
  now replace (Z.to_nat (b - a)) with 0%nat by lia.
Qed.

Lemma range_cons (a b : Z) : a < b -> Py.range a b = a :: Py.range (a + 1) b.
Proof.
  intros H. unfold Py.range.
  replace (Z.to_nat (b - a)) with (S (Z.to_nat (b - (a + 1)))) by lia.
  cbn [seq map]. f_equal; [lia|].
  rewrite <- seq_shift, map_map. apply map_ext. intros k. lia.
Qed.

(** A loop whose body never raises while the invariant holds runs to its
    end, and the invariant holds there. *)
Lemma for_range_total {S : Type} (I : Z -> S -> Prop) (body : Z -> S -> result S)
    (a b : Z) (s : S) :
  a <= b -> I a s ->
  (forall i s, a <= i < b -> I i s -> exists s', body i s = Ok s' /\ I (i + 1) s') ->
  exists s', Py.for_each (Py.range a b) body s = Ok s' /\ I b s'.
Proof.
  intros Hab. remember (Z.to_nat (b - a)) as n eqn:Hn.
  revert a s Hab Hn. induction n as [|n IH]; intros a s Hab Hn Ha Hstep.
  - assert (a = b) by lia. subst b. rewrite range_nil by lia.
    exists s. split; [reflexivity | exact Ha].
  - rewrite range_cons by lia. cbn [Py.for_each].
    destruct (Hstep a s ltac:(lia) Ha) as (s1 & -> & H1). cbn [bind].
    apply IH; [lia | lia | exact H1 |].
    intros i s2 Hi. apply Hstep. lia.
Qed.

(** A loop that ends without raising ends in a state where the invariant
    holds, when every turn that does not raise preserves it. *)
Lemma for_range_partial {S : Type} (I : Z -> S -> Prop) (body : Z -> S -> result S)
    (a b : Z) (s s' : S) :
  a <= b -> I a s ->
  (forall i s s', a <= i < b -> I i s -> body i s = Ok s' -> I (i + 1) s') ->
  Py.for_each (Py.range a b) body s = Ok s' -> I b s'.
Proof.
  intros Hab. remember (Z.to_nat (b - a)) as n eqn:Hn.
  revert a s Hab Hn. induction n as [|n IH]; intros a s Hab Hn Ha Hstep Hrun.
  - assert (a = b) by lia. subst b. rewrite range_nil in Hrun by lia.
    injection Hrun as <-. exact Ha.
  - rewrite range_cons in Hrun by lia. cbn [Py.for_each] in Hrun.
    apply bind_Ok in Hrun. destruct Hrun as (s1 & Hs1 & Hrun).
    apply (IH (a + 1) s1); [lia | lia | | | exact Hrun].
    + apply (Hstep a s s1); [lia | exact Ha | exact Hs1].
    + intros i s2 s3 Hi. apply Hstep. lia.
Qed.

(* ================================================================== *)
(** * Decoding yields bytes *)

Lemma hexval_range (c : ascii) (v : Z) : Py.hexval c = Some v -> 0 <= v < 16.
Proof.
  unfold Py.hexval. set (n := Py.code c).
  destruct ((48 <=? n) && (n <=? 57)) eqn:E1.
  - intros [= <-]. apply andb_prop in E1. destruct E1 as [E E'].
    apply Z.leb_le in E, E'. lia.
  - destruct ((97 <=? n) && (n <=? 102)) eqn:E2.
    + intros [= <-]. apply andb_prop in E2. destruct E2 as [E E'].
      apply Z.leb_le in E, E'. lia.
    + destruct ((65 <=? n) && (n <=? 70)) eqn:E3; [|discriminate].
      intros [= <-]. apply andb_prop in E3. destruct E3 as [E E'].
      apply Z.leb_le in E, E'. lia.
Qed.

(** Induction on strings two characters at a time, as [fromhex] recurses. *)
Lemma string_ind2 (P : string -> Prop) :
  P EmptyString ->
  (forall c, P (String c EmptyString)) ->
  (forall c d s, P s -> P (String d s) -> P (String c (String d s))) ->
  forall s, P s.
Proof.
  intros H0 H1 H2.
  assert (H : forall s, P s /\ forall c, P (String c s)).
  { induction s as [|d s [IHs IHc]].
    - split; [exact H0 | exact H1].
    - split; [apply IHc|]. intros c. apply H2; [exact IHs | apply IHc]. }
  intros s. apply H.
Qed.

Lemma fromhex_one (c : ascii) :
  Py.fromhex (String c EmptyString)
  = if Py.isspace c then Ok [] else Raise ValueError.
Proof. cbn [Py.fromhex]. now destruct (Py.isspace c), (Py.hexval c). Qed.

Lemma fromhex_two (c d : ascii) (s : string) :
  Py.fromhex (String c (String d s))
  = if Py.isspace c then Py.fromhex (String d s)
    else match Py.hexval c, Py.hexval d with
         | Some top, Some bot => tl <- Py.fromhex s ;; Ok ((16 * top + bot) :: tl)
         | _, _ => Raise ValueError
         end.
Proof.
  change (Py.fromhex (String c (String d s)))
    with (if Py.isspace c then Py.fromhex (String d s)
          else match Py.hexval c with
               | None => Raise ValueError
               | Some top =>
                   match Py.hexval d with
                   | None => Raise ValueError
                   | Some bot => tl <- Py.fromhex s ;; Ok ((16 * top + bot) :: tl)
                   end
               end).
  now destruct (Py.isspace c), (Py.hexval c), (Py.hexval d).
Qed.

Lemma fromhex_bytes (s : string) (l : list Z) : Py.fromhex s = Ok l -> bytes l.
Proof.
  revert l. induction s as [| c | c d s IHs IHds] using string_ind2; intros l.
  - intros [= <-]. constructor.
  - rewrite fromhex_one. destruct (Py.isspace c); [|discriminate].
    intros [= <-]. constructor.
  - rewrite fromhex_two. destruct (Py.isspace c).
    + apply IHds.
    + destruct (Py.hexval c) as [top|] eqn:Et; [|discriminate].
      destruct (Py.hexval d) as [bot|] eqn:Eb; [|discriminate].
      assert (Hb : byte (16 * top + bot)).
      { apply hexval_range in Et. apply hexval_range in Eb. unfold byte. lia. }
      intros H. apply bind_Ok in H. destruct H as (tl & Htl & [= <-]).
      constructor; [exact Hb | now apply IHs].
Qed.

Lemma hex_to_bytes_bytes (s : string) (l : list Z) :
  AES.hex_to_bytes s = Ok l -> bytes l.
Proof. apply fromhex_bytes. Qed.

(* ================================================================== *)
(** * Key expansion *)

Lemma getitem_in_range {A : Type} (l : list A) (i : Z) (d : A) :
  0 <= i < Z.of_nat (length l) -> Py.getitem l i = Ok (nth (Z.to_nat i) l d).
Proof.
  intros Hi. apply getitem_nth; [lia|]. apply nth_error_nth'. lia.
Qed.

Lemma word_inv (t : list Z) :
  word t -> exists a b c d, t = [a; b; c; d] /\ byte a /\ byte b /\ byte c /\ byte d.
Proof.
  intros [H4 Hb]. destruct (four_inv _ H4) as (a & b & c & d & ->).
  exists a, b, c, d. unfold bytes in Hb.
  repeat match goal with
         | H : Forall byte (_ :: _) |- _ => inversion_clear H
         end.
  auto.
Qed.

Lemma word_intro (a b c d : Z) :
  byte a -> byte b -> byte c -> byte d -> word [a; b; c; d].
Proof.
  intros Ha Hb Hc Hd. split; [reflexivity|].
  unfold bytes. repeat (apply Forall_cons; [assumption|]). apply Forall_nil.
Qed.

Lemma bytes_nth (l : list Z) (k : nat) :
  bytes l -> (k < length l)%nat -> byte (nth k l 0).
Proof. intros Hl Hk. now apply Forall_nth. Qed.

Lemma rcon_bytes : bytes AES.rcon.
Proof.
  unfold bytes, byte, AES.rcon. repeat (apply Forall_cons; [lia|]). apply Forall_nil.
Qed.

Lemma word_at_old (w : list (list Z)) (x : list Z) (k : Z) :
  0 <= k < Z.of_nat (length w) -> word_at (w ++ [x]) k = word_at w k.
Proof. intros Hk. unfold word_at. apply app_nth1. lia. Qed.

Lemma word_at_new (w : list (list Z)) (x : list Z) (k : Z) :
  k = Z.of_nat (length w) -> word_at (w ++ [x]) k = x.
Proof.
  intros ->. unfold word_at. rewrite Nat2Z.id. apply nth_middle.
Qed.

Lemma word_at_word (w : list (list Z)) (k : Z) :
  Forall word w -> 0 <= k < Z.of_nat (length w) -> word (word_at w k).
Proof.
  intros Hw Hk. unfold word_at. apply Forall_nth; [exact Hw | lia].
Qed.

Lemma length_snoc {A : Type} (l : list A) (x : A) :
  Z.of_nat (length (l ++ [x])) = Z.of_nat (length l) + 1.
Proof. rewrite length_app. cbn [length]. lia. Qed.

Section KeyExpansion.

Variable self : AES.t.
Hypothesis Hnk : In (AES.nk self) [4; 6; 8].
Hypothesis Hnr : AES.nr self = AES.nk self + 6.

Let Nk := AES.nk self.
Let Nr := AES.nr self.

Lemma Nk_cases : Nk = 4 \/ Nk = 6 \/ Nk = 8.
Proof. unfold Nk. cbn [In] in Hnk. intuition auto. Qed.

Lemma Rcon_lookup (i : Z) :
  Nk <= i < 4 * (Nr + 1) ->
  Py.getitem AES.rcon (i / Nk - 1) = Ok (Rcon (i / Nk - 1))
  /\ byte (Rcon (i / Nk - 1)).
Proof.
  intros Hi.
  assert (Hq : 0 <= i / Nk - 1 < 16).
  { unfold Nr in Hi. rewrite Hnr in Hi. fold Nk in Hi.
    destruct Nk_cases as [E|[E|E]]; rewrite E in *;
      Z.div_mod_to_equations; lia. }
  split.
  - apply getitem_in_range. exact Hq.
  - apply bytes_nth; [apply rcon_bytes|]. change (length AES.rcon) with 16%nat. lia.
Qed.

(** What the source does to [temp] is what the specification says. *)
Lemma expansion_temp_spec (i : Z) (t : list Z) :
  word t -> Nk <= i < 4 * (Nr + 1) ->
  AES.expansion_temp self i t = Ok (schedule_temp Nk i t)
  /\ word (schedule_temp Nk i t).
Proof.
  intros Ht Hi.
  destruct (word_inv _ Ht) as (a & b & c & d & -> & Ha & Hb & Hc & Hd).
  destruct (Rcon_lookup i Hi) as [Hrc Hrcb].
  assert (Hnz : (Nk =? 0) = false)
    by (destruct Nk_cases as [E|[E|E]]; rewrite E; reflexivity).
  unfold AES.expansion_temp, schedule_temp, Py.mod_, Py.floordiv.
  fold Nk. rewrite Hnz. cbn [bind].
  destruct (i mod Nk =? 0).
  - read_cells. cbn [Py.list_comp].
    rewrite !getitem_sbox by assumption. cbn [bind].
    read_cells. rewrite Hrc. cbn [bind].
    split; [reflexivity|].
    apply word_intro; auto using SubByte_byte, lxor_byte.
  - destruct ((6 <? Nk) && (i mod Nk =? 4)).
    + cbn [Py.list_comp]. rewrite !getitem_sbox by assumption. cbn [bind].
      split; [reflexivity|].
      apply word_intro; auto using SubByte_byte.
    + split; [reflexivity | exact Ht].
Qed.

(** The XOR with the word [Nk] positions back. *)
Lemma xor_back (w : list (list Z)) (k : Z) (temp : list Z) :
  Forall word w -> 0 <= k < Z.of_nat (length w) -> word temp ->
  Py.list_comp (fun j =>
               back <- Py.getitem w k ;;
               a <- Py.getitem back j ;;
               b <- Py.getitem temp j ;;
               Ok (a (+) b)) (Py.range 0 4)
  = Ok (xor_words (word_at w k) temp)
  /\ word (xor_words (word_at w k) temp).
Proof.
  intros Hw Hk Ht.
  rewrite (getitem_in_range w k []) by exact Hk. fold (word_at w k).
  destruct (word_inv _ (word_at_word w k Hw Hk))
    as (a & b & c & d & -> & Ha & Hb & Hc & Hd).
  destruct (word_inv _ Ht) as (a' & b' & c' & d' & -> & Ha' & Hb' & Hc' & Hd').
  split; [reflexivity|].
  apply word_intro; now apply lxor_byte.
Qed.

Variable key : string.
Variable key_bytes : list Z.
Hypothesis Hkey : AES.hex_to_bytes key = Ok key_bytes.
Hypothesis Hlen : Z.of_nat (length key_bytes) = 4 * Nk.

Lemma key_word_word (i : Z) : 0 <= i < Nk -> word (key_word key_bytes i).
Proof.
  intros Hi. pose proof (hex_to_bytes_bytes _ _ Hkey) as Hb.
  apply word_intro; apply bytes_nth; try exact Hb; lia.
Qed.

Lemma key_expansion_spec :
  exists w, AES.key_expansion self key = Ok w /\ expanded Nk key_bytes (4 * (Nr + 1)) w.
Proof.
  assert (HNk : 4 <= Nk <= 8) by (destruct Nk_cases as [E|[E|E]]; lia).
  assert (HNr : Nr = Nk + 6) by exact Hnr.
  unfold AES.key_expansion. rewrite Hkey. cbn [bind]. fold Nk Nr.
  destruct (for_range_total (copied key_bytes)
              (fun i w =>
                 b0 <- Py.getitem key_bytes (4 * i) ;;
                 b1 <- Py.getitem key_bytes (4 * i + 1) ;;
                 b2 <- Py.getitem key_bytes (4 * i + 2) ;;
                 b3 <- Py.getitem key_bytes (4 * i + 3) ;;
                 Ok (w ++ [[b0; b1; b2; b3]])) 0 Nk [])
    as (w0 & -> & Hw0).
  { lia. }
  { split; [reflexivity|]. split; [constructor|]. intros k Hk. lia. }
  { intros i w Hi (Hl & Hw & Hk).
    rewrite !(getitem_in_range key_bytes _ 0) by lia. cbn [bind].
    fold (key_word key_bytes i).
    eexists. split; [reflexivity|]. split; [|split].
    - rewrite length_snoc. lia.
    - apply Forall_app. split; [exact Hw|].
      constructor; [now apply key_word_word | constructor].
    - intros k Hk'. destruct (Z.eq_dec k i) as [->|Hne].
      + apply word_at_new. lia.
      + rewrite word_at_old by lia. apply Hk. lia. }
  cbn [bind].
  apply (for_range_total (expanded Nk key_bytes)).
  { lia. }
  { destruct Hw0 as (Hl & Hw & Hk). split; [exact Hl|]. split; [exact Hw|].
    split; [exact Hk|]. intros k Hk'. lia. }
  intros i w Hi (Hl & Hw & Hk & Hrec).
  rewrite (getitem_in_range w (i - 1) []) by lia. fold (word_at w (i - 1)).
  cbn [bind].
  assert (Hprev : word (word_at w (i - 1))) by (apply word_at_word; [exact Hw | lia]).
  destruct (expansion_temp_spec i _ Hprev Hi) as [-> Htemp]. cbn [bind].
  destruct (xor_back w (i - Nk) _ Hw ltac:(lia) Htemp) as [Hx Hxw].
  fold Nk. rewrite Hx. cbn [bind].
  eexists. split; [reflexivity|]. split; [|split; [|split]].
  - rewrite length_snoc. lia.
  - apply Forall_app. split; [exact Hw|]. constructor; [exact Hxw | constructor].
  - intros k Hk'. rewrite word_at_old by lia. now apply Hk.
  - intros k Hk'. destruct (Z.eq_dec k i) as [->|Hne].
    + rewrite word_at_new by lia. now rewrite !word_at_old by lia.
    + rewrite !word_at_old by lia. apply Hrec. lia.
Qed.

End KeyExpansion.

(** C2: for a key of [4*Nk] bytes, [Nk] in {4, 6, 8} and [Nr = Nk + 6], the
    key expansion returns [4*(Nr+1)] four-byte words; the first [Nk] are the
    key bytes four at a time, and every later word [i] is word [i - Nk] XOR
    [temp], where [temp] is word [i - 1] after RotWord, SubWord and the XOR
    of its first byte with [Rcon[i/Nk - 1]] when [i mod Nk = 0], after
    SubWord alone when [Nk > 6] and [i mod Nk = 4], and unchanged
    otherwise. *)
Theorem key_expansion_schedule (self : AES.t) (key : string) (key_bytes : list Z) :
  In (AES.nk self) [4; 6; 8] ->
  AES.nr self = AES.nk self + 6 ->
  AES.hex_to_bytes key = Ok key_bytes ->
  Z.of_nat (length key_bytes) = 4 * AES.nk self ->
  exists w,
    AES.key_expansion self key = Ok w
    /\ Z.of_nat (length w) = 4 * (AES.nr self + 1)
    /\ Forall word w
    /\ (forall i, 0 <= i < AES.nk self -> word_at w i = key_word key_bytes i)
    /\ (forall i, AES.nk self <= i < 4 * (AES.nr self + 1) ->
          word_at w i
          = xor_words (word_at w (i - AES.nk self))
                      (schedule_temp (AES.nk self) i (word_at w (i - 1)))).
Proof.
  intros Hnk Hnr Hkey Hlen.
  destruct (key_expansion_spec self Hnk Hnr key key_bytes Hkey Hlen)
    as (w & Hw & H).
  exists w. split; [exact Hw | exact H].
Qed.

Lemma key_expansion_schedule_witness :
  exists w,
    AES.key_expansion (AES.__init__ 128) fips_key_128 = Ok w
    /\ Z.of_nat (length w) = 4 * (AES.nr (AES.__init__ 128) + 1)
    /\ Forall word w
    /\ (forall i, 0 <= i < AES.nk (AES.__init__ 128) ->
          word_at w i = key_word fips_key_128_bytes i)
    /\ (forall i, AES.nk (AES.__init__ 128) <= i < 4 * (AES.nr (AES.__init__ 128) + 1) ->
          word_at w i
          = xor_words (word_at w (i - AES.nk (AES.__init__ 128)))
                      (schedule_temp (AES.nk (AES.__init__ 128)) i (word_at w (i - 1)))).
Proof.
  apply (key_expansion_schedule (AES.__init__ 128) fips_key_128).
  - left. reflexivity.
  - reflexivity.
  - reflexivity.
  - reflexivity.
Defined.

(** The last word of the schedule of FIPS-197, appendix C.1: 4d 2b 30 c5. *)
Example key_expansion_fips_last_word :
  exists w, AES.key_expansion (AES.__init__ 128) fips_key_128 = Ok w
            /\ word_at w 43 = [77; 43; 48; 197].
Proof. eexists. split; [vm_compute; reflexivity | reflexivity]. Qed.

(* ================================================================== *)
(** * Encryption runs to its end on well-formed inputs *)

Lemma bytes_to_matrix_wf (data : list Z) :
  bytes data -> (16 <= length data)%nat ->
  exists st, AES.bytes_to_matrix data = Ok st /\ wf_state st.
Proof.
  intros Hb Hlen.
  do 16 (destruct data as [|? data]; [cbn [length] in Hlen; lia|]).
  eexists. split; [apply bytes_to_matrix_16|].
  apply wf_state_intro. cells_bytes.
Qed.

Lemma bytes_to_matrix_short (data : list Z) :
  (length data < 16)%nat -> AES.bytes_to_matrix data = Raise IndexError.
Proof.
  intros Hlen.
  do 16 (destruct data as [|? data]; [reflexivity|]).
  cbn [length] in Hlen. lia.
Qed.

Lemma matrix_to_bytes_wf (st : list (list Z)) :
  wf_state st -> exists data, AES.matrix_to_bytes st = Ok data.
Proof.
  intros H. state_cells H. eexists. apply matrix_to_bytes_44. exact Hcells.
Qed.

Lemma round_keys_total (w : list (list Z)) (n : Z) :
  Forall word w -> Z.of_nat (length w) = 4 * n -> 0 <= n ->
  exists rks,
    Py.for_each (Py.range 0 n) (fun i round_keys =>
      round_key <- Py.for_each (Py.range 0 4) (fun j round_key =>
                     word <- Py.getitem w (4 * i + j) ;;
                     Ok (round_key ++ [word])) [] ;;
      Ok (round_keys ++ [round_key])) [] = Ok rks
    /\ Z.of_nat (length rks) = n
    /\ Forall round_key_ok rks.
Proof.
  intros Hw Hlen Hn.
  apply (for_range_total
           (fun i rks => Z.of_nat (length rks) = i /\ Forall round_key_ok rks)).
  - exact Hn.
  - split; [reflexivity | constructor].
  - intros i rks Hi [Hl Hrks].
    change (Py.range 0 4) with [0; 1; 2; 3]. cbn [Py.for_each].
    rewrite !(getitem_in_range w _ []) by lia. cbn [bind app].
    eexists. split; [reflexivity|]. split.
    + rewrite length_snoc. lia.
    + apply Forall_app. split; [exact Hrks|]. constructor; [|constructor].
      split; [reflexivity|].
      repeat (apply Forall_cons; [apply Forall_nth; [exact Hw | lia]|]).
      apply Forall_nil.
Qed.

Lemma expanded_key_total (rks : list (list (list Z))) (n : Z) :
  Z.of_nat (length rks) = n ->
  exists ek,
    Py.for_each (Py.range 0 n) (fun i ek =>
      rk <- Py.getitem rks i ;;
      Ok (ek ++ [AES.mk_round_key_entry i (AES.matrix_to_hex rk)])) [] = Ok ek.
Proof.
  intros Hlen.
  destruct (for_range_total (fun _ _ => True)
              (fun i ek =>
                 rk <- Py.getitem rks i ;;
                 Ok (ek ++ [AES.mk_round_key_entry i (AES.matrix_to_hex rk)]))
              0 n []) as (ek & Hek & _).
  - lia.
  - exact I.
  - intros i ek Hi _. rewrite (getitem_in_range rks i []) by lia.
    cbn [bind]. eexists. split; [reflexivity | exact I].
  - now exists ek.
Qed.

Lemma round_key_matrix_wf (rks : list (list (list Z))) (r : Z) :
  Forall round_key_ok rks -> 0 <= r < Z.of_nat (length rks) ->
  exists m, AES.round_key_matrix rks r = Ok m /\ wf_state m.
Proof.
  intros Hrks Hr.
  assert (Hrk : round_key_ok (nth (Z.to_nat r) rks []))
    by (apply Forall_nth; [exact Hrks | lia]).
  unfold AES.round_key_matrix.
  rewrite (getitem_in_range rks r []) by exact Hr.
  destruct Hrk as [H4 Hws].
  destruct (four_inv _ H4) as (w0 & w1 & w2 & w3 & E). rewrite E in *. clear E.
  pose proof (Forall_inv Hws) as H0. apply Forall_inv_tail in Hws.
  pose proof (Forall_inv Hws) as H1. apply Forall_inv_tail in Hws.
  pose proof (Forall_inv Hws) as H2. apply Forall_inv_tail in Hws.
  pose proof (Forall_inv Hws) as H3. clear Hws.
  destruct (word_inv _ H0) as (a0 & b0 & c0 & d0 & -> & ? & ? & ? & ?).
  destruct (word_inv _ H1) as (a1 & b1 & c1 & d1 & -> & ? & ? & ? & ?).
  destruct (word_inv _ H2) as (a2 & b2 & c2 & d2 & -> & ? & ? & ? & ?).
  destruct (word_inv _ H3) as (a3 & b3 & c3 & d3 & -> & ? & ? & ? & ?).
  eexists. split; [reflexivity|].
  apply wf_state_intro. unfold bytes.
  repeat (apply Forall_cons; [assumption|]). apply Forall_nil.
Qed.

Lemma main_round_wf (rks : list (list (list Z))) (r : Z)
    (st : list (list Z)) (rs : list AES.step) :
  Forall round_key_ok rks -> 0 <= r < Z.of_nat (length rks) -> wf_state st ->
  exists st' rs', AES.main_round rks r (st, rs) = Ok (st', rs') /\ wf_state st'.
Proof.
  intros Hrks Hr Hst. unfold AES.main_round.
  destruct (sub_bytes_wf _ Hst) as (s1 & -> & H1). cbn [bind].
  destruct (shift_rows_wf _ H1) as (s2 & -> & H2). cbn [bind].
  destruct (mix_columns_wf _ H2) as (s3 & -> & H3). cbn [bind].
  destruct (round_key_matrix_wf _ _ Hrks Hr) as (k & -> & Hk). cbn [bind].
  destruct (add_round_key_wf _ _ H3 Hk) as (s4 & -> & H4). cbn [bind].
  eexists. eexists. split; [reflexivity | exact H4].
Qed.

Lemma encrypt_total (self : AES.t) (plaintext key : string)
    (pt_bytes key_bytes : list Z) :
  In (AES.nk self) [4; 6; 8] ->
  AES.nr self = AES.nk self + 6 ->
  AES.hex_to_bytes plaintext = Ok pt_bytes ->
  (16 <= length pt_bytes)%nat ->
  AES.hex_to_bytes key = Ok key_bytes ->
  Z.of_nat (length key_bytes) = 4 * AES.nk self ->
  exists trace, AES.encrypt self plaintext key = Ok trace.
Proof.
  intros Hnk Hnr Hpt Hptlen Hkey Hkeylen.
  assert (HNr : 10 <= AES.nr self <= 14)
    by (cbn [In] in Hnk; intuition lia).
  unfold AES.encrypt. rewrite Hpt, Hkey. cbn [bind].
  destruct (bytes_to_matrix_wf pt_bytes (hex_to_bytes_bytes _ _ Hpt) Hptlen)
    as (st & -> & Hst). cbn [bind].
  destruct (key_expansion_spec self Hnk Hnr key key_bytes Hkey Hkeylen)
    as (w & -> & Hl & Hw & _). cbn [bind].
  destruct (round_keys_total w (AES.nr self + 1) Hw Hl ltac:(lia))
    as (rks & -> & Hrl & Hrks). cbn [bind].
  destruct (expanded_key_total rks (AES.nr self + 1) Hrl) as (ek & ->). cbn [bind].
  destruct (round_key_matrix_wf rks 0 Hrks ltac:(lia)) as (k0 & -> & Hk0).
  cbn [bind].
  destruct (add_round_key_wf _ _ Hst Hk0) as (s0 & -> & Hs0). cbn [bind].
  destruct (for_range_total (fun _ acc => wf_state (fst acc))
              (AES.main_round rks) 1 (AES.nr self)
              (s0, [AES.mk_step 0 "Initial AddRoundKey" (AES.matrix_to_hex s0)]))
    as ([s1 rs1] & -> & Hs1).
  { lia. }
  { exact Hs0. }
  { intros i [s rs] Hi Hs.
    destruct (main_round_wf rks i s rs Hrks ltac:(lia) Hs) as (s' & rs' & -> & Hs').
    exists (s', rs'). split; [reflexivity | exact Hs']. }
  cbn [bind fst] in *.
  destruct (sub_bytes_wf _ Hs1) as (s2 & -> & Hs2). cbn [bind].
  destruct (shift_rows_wf _ Hs2) as (s3 & -> & Hs3). cbn [bind].
  destruct (round_key_matrix_wf rks (AES.nr self) Hrks ltac:(lia)) as (kn & -> & Hkn).
  cbn [bind].
  destruct (add_round_key_wf _ _ Hs3 Hkn) as (s4 & -> & Hs4). cbn [bind].
  destruct (matrix_to_bytes_wf _ Hs4) as (ct & ->). cbn [bind].
  eexists. reflexivity.
Qed.

(* ================================================================== *)
(** * The order of the records of the trace *)

Lemma main_round_labels (rks : list (list (list Z))) (r : Z)
    (st st' : list (list Z)) (rs rs' : list AES.step) :
  AES.main_round rks r (st, rs) = Ok (st', rs') ->
  map label rs' = map label rs ++ main_labels r.
Proof.
  unfold AES.main_round. intros H.
  apply bind_Ok in H. destruct H as (s1 & _ & H).
  apply bind_Ok in H. destruct H as (s2 & _ & H).
  apply bind_Ok in H. destruct H as (s3 & _ & H).
  apply bind_Ok in H. destruct H as (k & _ & H).
  apply bind_Ok in H. destruct H as (s4 & _ & H).
  injection H as _ <-.
  rewrite !map_app, <- !app_assoc. reflexivity.
Qed.

Lemma main_rounds_labels (rks : list (list (list Z))) (xs : list Z)
    (st st' : list (list Z)) (rs rs' : list AES.step) :
  Py.for_each xs (AES.main_round rks) (st, rs) = Ok (st', rs') ->
  map label rs' = map label rs ++ flat_map main_labels xs.
Proof.
  revert st rs. induction xs as [|r xs IH]; intros st rs H.
  - injection H as _ <-. now rewrite app_nil_r.
  - cbn [Py.for_each] in H. apply bind_Ok in H.
    destruct H as ([s1 rs1] & H1 & H).
    apply main_round_labels in H1. apply IH in H.
    rewrite H, H1. cbn [flat_map]. now rewrite <- app_assoc.
Qed.

(** C3: the records of a trace are, in this order, one record "Initial
    AddRoundKey" of round 0; for each round [r] from 1 to [Nr - 1] the four
    records SubBytes, ShiftRows, MixColumns, AddRoundKey of round [r]; and
    the three records SubBytes, ShiftRows, "Final AddRoundKey" of round [Nr],
    with no MixColumns record in that last round. *)
Theorem encrypt_trace_order (self : AES.t) (plaintext key : string)
    (trace : AES.results) :
  AES.encrypt self plaintext key = Ok trace ->
  map label (AES.rounds trace) = trace_labels (AES.nr self).
Proof.
  unfold AES.encrypt. intros H.
  apply bind_Ok in H. destruct H as (pt_bytes & _ & H).
  apply bind_Ok in H. destruct H as (key_bytes & _ & H).
  apply bind_Ok in H. destruct H as (st & _ & H).
  apply bind_Ok in H. destruct H as (w & _ & H).
  apply bind_Ok in H. destruct H as (rks & _ & H).
  apply bind_Ok in H. destruct H as (ek & _ & H).
  apply bind_Ok in H. destruct H as (k0 & _ & H).
  apply bind_Ok in H. destruct H as (s0 & _ & H).
  apply bind_Ok in H. destruct H as ([s1 rs1] & Hmain & H).
  apply bind_Ok in H. destruct H as (s2 & _ & H).
  apply bind_Ok in H. destruct H as (s3 & _ & H).
  apply bind_Ok in H. destruct H as (kn & _ & H).
  apply bind_Ok in H. destruct H as (s4 & _ & H).
  apply bind_Ok in H. destruct H as (ct & _ & H).
  injection H as <-. cbn [AES.rounds].
  apply main_rounds_labels in Hmain.
  rewrite !map_app, Hmain. unfold trace_labels.
  cbn [map label AES.round AES.operation app]. rewrite <- !app_assoc. reflexivity.
Qed.

Lemma encrypt_trace_order_witness :
  exists trace,
    AES.encrypt (AES.__init__ 128) fips_plaintext fips_key_128 = Ok trace
    /\ map label (AES.rounds trace) = trace_labels (AES.nr (AES.__init__ 128)).
Proof.
  eexists. split.
  - vm_compute. reflexivity.
  - apply (encrypt_trace_order (AES.__init__ 128) fips_plaintext fips_key_128).
    vm_compute. reflexivity.
Defined.

(** The trace of an encryption of [Nr] rounds has [4 * Nr] records: 40, 48
    and 56 for the three key sizes. *)
Lemma trace_labels_length (Nr : Z) :
  1 <= Nr -> Z.of_nat (length (trace_labels Nr)) = 4 * Nr.
Proof.
  intros H. unfold trace_labels. cbn [length]. rewrite length_app.
  assert (Hm : forall xs, length (flat_map main_labels xs) = (4 * length xs)%nat).
  { induction xs as [|x xs IH]; [reflexivity|].
    cbn [flat_map app main_labels length]. rewrite IH. lia. }
  rewrite Hm. unfold Py.range. rewrite length_map, length_seq.
  cbn [final_labels length]. lia.
Qed.

(** No record of the last round is a MixColumns record. *)
Lemma final_round_skips_mix_columns (Nr : Z) :
  1 <= Nr -> ~ In (Nr, "MixColumns") (trace_labels Nr).
Proof.
  intros HNr. unfold trace_labels. intros [H | H]; [discriminate H|].
  apply in_app_or in H. destruct H as [H | H].
  - apply in_flat_map in H. destruct H as (r & Hr & Hin).
    apply range_in in Hr.
    cbn [main_labels In] in Hin.
    destruct Hin as [E|[E|[E|[E|[]]]]]; injection E as E; lia.
  - cbn [final_labels In] in H.
    destruct H as [E|[E|[E|[]]]]; discriminate E.
Qed.

(* ================================================================== *)
(** * Inputs of the wrong length *)

Lemma key_expansion_short (self : AES.t) (key : string) (key_bytes : list Z) :
  In (AES.nk self) [4; 6; 8] ->
  AES.hex_to_bytes key = Ok key_bytes ->
  Z.of_nat (length key_bytes) < 4 * AES.nk self ->
  AES.key_expansion self key = Raise IndexError.
Proof.
  intros Hnk Hkey Hlen. unfold AES.key_expansion. rewrite Hkey. cbn [bind].
  destruct self as [ks Nk Nr]. cbn [AES.nk AES.nr In] in *.
  destruct Hnk as [<-|[<-|[<-|[]]]].
  - do 16 (destruct key_bytes as [|? key_bytes]; [reflexivity|]).
    cbn [length] in Hlen. lia.
  - do 24 (destruct key_bytes as [|? key_bytes]; [reflexivity|]).
    cbn [length] in Hlen. lia.
  - do 32 (destruct key_bytes as [|? key_bytes]; [reflexivity|]).
    cbn [length] in Hlen. lia.
Qed.

Lemma init_valid (ks : Z) :
  In ks [128; 192; 256] ->
  In (AES.nk (AES.__init__ ks)) [4; 6; 8]
  /\ AES.nr (AES.__init__ ks) = AES.nk (AES.__init__ ks) + 6
  /\ 4 * AES.nk (AES.__init__ ks) = ks / 8
  /\ 8 * AES.nk (AES.__init__ ks) = ks / 4.
Proof.
  cbn [In]. intros [<-|[<-|[<-|[]]]]; cbn; intuition auto.
Qed.

Lemma remove_char_length (c : ascii) (s : string) :
  (String.length (Py.remove_char c s) <= String.length s)%nat.
Proof.
  induction s as [|d s IH]; [apply Nat.le_refl|].
  cbn [Py.remove_char String.length]. destruct (Ascii.eqb d c); cbn [String.length]; lia.
Qed.

Lemma fromhex_length (s : string) (l : list Z) :
  Py.fromhex s = Ok l -> (2 * length l <= String.length s)%nat.
Proof.
  revert l. induction s as [| c | c d s IHs IHds] using string_ind2; intros l.
  - intros [= <-]. apply Nat.le_refl.
  - rewrite fromhex_one. destruct (Py.isspace c); [|discriminate].
    intros [= <-]. cbn. lia.
  - rewrite fromhex_two. destruct (Py.isspace c).
    + intros H. apply IHds in H. cbn [String.length] in *. lia.
    + destruct (Py.hexval c) as [top|]; [|discriminate].
      destruct (Py.hexval d) as [bot|]; [|discriminate].
      intros H. apply bind_Ok in H. destruct H as (tl & Htl & [= <-]).
      apply IHs in Htl. cbn [String.length length]. lia.
Qed.

(** A decoded input has at most half as many bytes as the route counts
    characters. *)
Lemma hex_to_bytes_length (s : string) (l : list Z) :
  AES.hex_to_bytes s = Ok l ->
  (2 * length l <= String.length (Py.remove_0x (Py.remove_char " " s)))%nat.
Proof.
  intros H. apply fromhex_length in H. unfold AES.clean in H.
  pose proof (remove_char_length "010" (Py.remove_0x (Py.remove_char " " s))).
  lia.
Qed.

Lemma encrypt_short (ks : Z) (plaintext key : string) (pt_bytes key_bytes : list Z) :
  In ks [128; 192; 256] ->
  AES.hex_to_bytes plaintext = Ok pt_bytes ->
  AES.hex_to_bytes key = Ok key_bytes ->
  (length pt_bytes < 16)%nat \/ Z.of_nat (length key_bytes) < ks / 8 ->
  AES.encrypt (AES.__init__ ks) plaintext key = Raise IndexError.
Proof.
  intros Hks Hpt Hkey Hshort.
  destruct (init_valid ks Hks) as (Hnk & Hnr & Hk8 & _).
  unfold AES.encrypt. rewrite Hpt, Hkey. cbn [bind].
  destruct (Nat.lt_ge_cases (length pt_bytes) 16) as [Hlt | Hge].
  - now rewrite bytes_to_matrix_short.
  - destruct (bytes_to_matrix_wf pt_bytes (hex_to_bytes_bytes _ _ Hpt) Hge)
      as (st & -> & _). cbn [bind].
    rewrite (key_expansion_short _ key key_bytes Hnk Hkey); [reflexivity|].
    destruct Hshort as [Hs | Hs]; lia.
Qed.

(** The claim that every input of the wrong length is answered by a length
    error fails on [AES.encrypt]: a plaintext and a key of 17 bytes each are
    accepted at key size 128, and the result is the ciphertext of their
    first 16 bytes. *)
Lemma encrypt_overlong_inputs_accepted :
  exists pt_bytes key_bytes trace,
    AES.hex_to_bytes (fips_plaintext ++ "ff")%string = Ok pt_bytes
    /\ length pt_bytes = 17%nat
    /\ AES.hex_to_bytes (fips_key_128 ++ "ff")%string = Ok key_bytes
    /\ length key_bytes = 17%nat
    /\ AES.encrypt (AES.__init__ 128) (fips_plaintext ++ "ff") (fips_key_128 ++ "ff")
       = Ok trace
    /\ ~ raises (AES.encrypt (AES.__init__ 128) (fips_plaintext ++ "ff")
                   (fips_key_128 ++ "ff"))
    /\ AES.final_ciphertext trace = "69C4E0D86A7B0430D8CDB78070B4C55A".
Proof.
  do 3 eexists.
  split; [vm_compute; reflexivity|]. split; [reflexivity|].
  split; [vm_compute; reflexivity|]. split; [reflexivity|].
  split; [vm_compute; reflexivity|].
  split; [vm_compute; intros []|]. reflexivity.
Qed.

(** C5 (as amended): at key size 128, 192 or 256, [AES.encrypt] raises
    [IndexError] whenever the plaintext decodes to fewer than 16 bytes or the
    key to fewer than [key_size/8] bytes; and through the route every input
    that does not decode to exactly 16, respectively [key_size/8], bytes is
    answered by an error (400 from the length check on the hex text, or 500
    from that [IndexError]), never by a trace. *)
Theorem encrypt_length_violations (ks : Z) (plaintext key : string)
    (pt_bytes key_bytes : list Z) :
  In ks [128; 192; 256] ->
  AES.hex_to_bytes plaintext = Ok pt_bytes ->
  AES.hex_to_bytes key = Ok key_bytes ->
  ((length pt_bytes < 16)%nat \/ Z.of_nat (length key_bytes) < ks / 8 ->
   AES.encrypt (AES.__init__ ks) plaintext key = Raise IndexError)
  /\ (length pt_bytes <> 16%nat \/ Z.of_nat (length key_bytes) <> ks / 8 ->
      (exists msg, App.encrypt plaintext key ks = App.Error400 msg)
      \/ App.encrypt plaintext key ks = App.Error500 IndexError).
Proof.
  intros Hks Hpt Hkey. split.
  - now apply encrypt_short.
  - intros Hbad. unfold App.encrypt.
    destruct (Z.of_nat (String.length (Py.remove_0x (Py.remove_char " " plaintext)))
              =? 32) eqn:Em; cbn [negb]; [|left; eexists; reflexivity].
    destruct (Z.of_nat (String.length (Py.remove_0x (Py.remove_char " " key)))
              =? ks / 4) eqn:Ek; cbn [negb]; [|left; eexists; reflexivity].
    right. apply Z.eqb_eq in Em, Ek.
    pose proof (hex_to_bytes_length _ _ Hpt) as Lp.
    pose proof (hex_to_bytes_length _ _ Hkey) as Lk.
    destruct (init_valid ks Hks) as (_ & _ & Hk8 & Hk4).
    rewrite (encrypt_short ks plaintext key pt_bytes key_bytes Hks Hpt Hkey);
      [reflexivity|].
    destruct Hbad as [Hb | Hb]; [left | right]; lia.
Qed.

Lemma encrypt_length_violations_witness :
  (length [0; 0; 0; 0; 0; 0; 0; 0; 0; 0; 0; 0; 0; 0; 0] < 16)%nat
  /\ AES.encrypt (AES.__init__ 128) "000000000000000000000000000000" fips_key_128
     = Raise IndexError.
Proof.
  split; [cbn [length]; lia|].
  apply (proj1 (encrypt_length_violations 128 "000000000000000000000000000000"
                  fips_key_128 [0; 0; 0; 0; 0; 0; 0; 0; 0; 0; 0; 0; 0; 0; 0]
                  fips_key_128_bytes
                  ltac:(left; reflexivity) eq_refl eq_refl)).
  left. cbn [length]. lia.
Defined.

(** The two examples of the specification: a 15-byte plaintext, and a
    10-byte key, at key size 128; on the class and through the route. *)
Example encrypt_15_byte_plaintext :
  AES.encrypt (AES.__init__ 128) "000000000000000000000000000000" fips_key_128
  = Raise IndexError
  /\ App.encrypt "000000000000000000000000000000" fips_key_128 128
     = App.Error400 "Message must be exactly 16 bytes (32 hex characters)".
Proof. split; reflexivity. Qed.

Example encrypt_10_byte_key :
  AES.encrypt (AES.__init__ 128) fips_plaintext "00000000000000000000"
  = Raise IndexError
  /\ App.encrypt fips_plaintext "00000000000000000000" 128
     = App.Error400 "Key must be exactly 16 bytes (32 hex characters) for AES-128".
Proof. split; vm_compute; reflexivity. Qed.

(* ================================================================== *)
(** * The key size *)

(** The claim that a key size outside {128, 192, 256} is rejected fails: 130
    is accepted, by the class and by the route, and gives the AES-128
    result. *)
Lemma encrypt_accepts_key_size_130 :
  ~ In 130 [128; 192; 256]
  /\ exists trace,
       AES.encrypt (AES.__init__ 130) fips_plaintext fips_key_128 = Ok trace
       /\ ~ raises (AES.encrypt (AES.__init__ 130) fips_plaintext fips_key_128)
       /\ App.encrypt fips_plaintext fips_key_128 130 = App.Json200 trace
       /\ AES.final_ciphertext trace = "69C4E0D86A7B0430D8CDB78070B4C55A".
Proof.
  split.
  - cbn [In]. intros [H|[H|[H|[]]]]; discriminate H.
  - eexists. split; [vm_compute; reflexivity|].
    split; [vm_compute; intros []|].
    split; [vm_compute; reflexivity | reflexivity].
Qed.

(** A key size whose [Nk] is none of 4, 6, 8 is not rejected either: 96
    gives a cipher of 9 rounds on a 12-byte key. *)
Example encrypt_accepts_key_size_96 :
  exists trace,
    AES.encrypt (AES.__init__ 96) fips_plaintext "000102030405060708090a0b" = Ok trace
    /\ map label (AES.rounds trace) = trace_labels 9.
Proof. eexists. split; [vm_compute; reflexivity | reflexivity]. Qed.

(** C4 (as amended): [encrypt] does not validate the key size; it derives
    [Nk = key_size // 32] and [Nr = Nk + 6] from whatever it is given and
    proceeds.  Every key size whose [Nk] is 4, 6 or 8 (129..159, 192..223,
    256..287) is processed as the key size [32 * Nk] is: on a plaintext that
    decodes to at least 16 bytes and a key that decodes to [4 * Nk] bytes
    the encryption returns the same trace, and no error. *)
Theorem encrypt_key_size_unchecked (ks : Z) (plaintext key : string)
    (pt_bytes key_bytes : list Z) :
  In (ks / 32) [4; 6; 8] ->
  AES.hex_to_bytes plaintext = Ok pt_bytes ->
  (16 <= length pt_bytes)%nat ->
  AES.hex_to_bytes key = Ok key_bytes ->
  Z.of_nat (length key_bytes) = 4 * (ks / 32) ->
  AES.nk (AES.__init__ ks) = ks / 32
  /\ AES.nr (AES.__init__ ks) = ks / 32 + 6
  /\ exists trace,
       AES.encrypt (AES.__init__ ks) plaintext key = Ok trace
       /\ AES.encrypt (AES.__init__ (32 * (ks / 32))) plaintext key = Ok trace.
Proof.
  intros Hnk Hpt Hptlen Hkey Hkeylen.
  split; [reflexivity|]. split; [reflexivity|].
  destruct (encrypt_total (AES.__init__ ks) plaintext key pt_bytes key_bytes
              Hnk eq_refl Hpt Hptlen Hkey Hkeylen) as (trace & Htrace).
  exists trace. split; [exact Htrace|].
  rewrite <- Htrace. unfold AES.encrypt, AES.key_expansion, AES.expansion_temp.
  cbn [AES.nk AES.nr AES.__init__].
  replace (32 * (ks / 32) / 32) with (ks / 32); [reflexivity|].
  rewrite Z.mul_comm, Z.div_mul; lia.
Qed.

Lemma encrypt_key_size_unchecked_witness :
  AES.nk (AES.__init__ 130) = 130 / 32
  /\ AES.nr (AES.__init__ 130) = 130 / 32 + 6
  /\ exists trace,
       AES.encrypt (AES.__init__ 130) fips_plaintext fips_key_128 = Ok trace
       /\ AES.encrypt (AES.__init__ (32 * (130 / 32))) fips_plaintext fips_key_128
          = Ok trace.
Proof.
  apply (encrypt_key_size_unchecked 130 fips_plaintext fips_key_128
           fips_plaintext_bytes
           fips_key_128_bytes).
  - left. reflexivity.
  - reflexivity.
  - unfold fips_plaintext_bytes. cbn [length]. lia.
  - reflexivity.
  - reflexivity.
Defined.

(* ================================================================== *)
(** * Decoding hexadecimal text *)

Lemma isspace_not_hexdigit (c : ascii) :
  Py.isspace c = true -> Py.hexval c = None.
Proof.
  unfold Py.isspace, Py.hexval. set (n := Py.code c). intros H.
  assert (Hn : n = 32 \/ 9 <= n <= 13).
  { apply orb_prop in H. destruct H as [H | H].
    - left. now apply Z.eqb_eq.
    - right. apply andb_prop in H. destruct H as [H1 H2].
      apply Z.leb_le in H1, H2. lia. }
  replace ((48 <=? n) && (n <=? 57)) with false
    by (symmetry; apply andb_false_iff; left; apply Z.leb_gt; lia).
  replace ((97 <=? n) && (n <=? 102)) with false
    by (symmetry; apply andb_false_iff; left; apply Z.leb_gt; lia).
  now replace ((65 <=? n) && (n <=? 70)) with false
    by (symmetry; apply andb_false_iff; left; apply Z.leb_gt; lia).
Qed.

(** The decoder raises nothing but [ValueError]. *)
Lemma fromhex_result (s : string) :
  (exists l, Py.fromhex s = Ok l) \/ Py.fromhex s = Raise ValueError.
Proof.
  induction s as [| c | c d s IHs IHds] using string_ind2.
  - left. now exists [].
  - rewrite fromhex_one. destruct (Py.isspace c); [left; now exists [] | now right].
  - rewrite fromhex_two. destruct (Py.isspace c); [exact IHds|].
    destruct (Py.hexval c) as [top|]; [|now right].
    destruct (Py.hexval d) as [bot|]; [|now right].
    destruct IHs as [(l & ->) | ->]; [left; eexists; reflexivity | now right].
Qed.

(** A string that decodes is made of pairs of digits and of whitespace. *)
Lemma fromhex_Ok_shape (s : string) (l : list Z) :
  Py.fromhex s = Ok l ->
  hexcount s = (2 * length l)%nat
  /\ forall c, In c (chars s) -> Py.hexval c = None -> Py.isspace c = true.
Proof.
  revert l. induction s as [| c | c d s IHs IHds] using string_ind2; intros l.
  - intros [= <-]. split; [reflexivity|]. intros c [].
  - rewrite fromhex_one. destruct (Py.isspace c) eqn:Ec; [|discriminate].
    intros [= <-]. split.
    + cbn [hexcount]. unfold is_hexdigit. now rewrite (isspace_not_hexdigit c Ec).
    + intros c' [<- | []] _. exact Ec.
  - rewrite fromhex_two. destruct (Py.isspace c) eqn:Ec.
    + intros H. destruct (IHds l H) as [Hn Hc]. split.
      * change (hexcount (String c (String d s)))
          with ((if is_hexdigit c then 1 else 0) + hexcount (String d s))%nat.
        unfold is_hexdigit at 1. now rewrite (isspace_not_hexdigit c Ec).
      * intros c' [<- | Hin] Hv; [exact Ec | now apply Hc].
    + destruct (Py.hexval c) as [top|] eqn:Et; [|discriminate].
      destruct (Py.hexval d) as [bot|] eqn:Eb; [|discriminate].
      intros H. apply bind_Ok in H. destruct H as (tl & Htl & [= <-]).
      destruct (IHs tl Htl) as [Hn Hc]. split.
      * cbn [hexcount length]. unfold is_hexdigit. rewrite Et, Eb, Hn. lia.
      * intros c' [<- | [<- | Hin]] Hv; [congruence | congruence | now apply Hc].
Qed.

Lemma fromhex_bad_char (s : string) (c : ascii) :
  In c (chars s) -> Py.hexval c = None -> Py.isspace c = false ->
  Py.fromhex s = Raise ValueError.
Proof.
  intros Hin Hv Hs. destruct (fromhex_result s) as [(l & Hl) | H]; [|exact H].
  destruct (fromhex_Ok_shape s l Hl) as [_ Hc].
  specialize (Hc c Hin Hv). congruence.
Qed.

Lemma fromhex_odd_digits (s : string) :
  Nat.odd (hexcount s) = true -> Py.fromhex s = Raise ValueError.
Proof.
  intros Hodd. destruct (fromhex_result s) as [(l & Hl) | H]; [|exact H].
  destruct (fromhex_Ok_shape s l Hl) as [Hn _].
  rewrite Hn in Hodd. rewrite Nat.odd_mul in Hodd. discriminate Hodd.
Qed.

Lemma hexcount_all_digits (s : string) :
  (forall c, In c (chars s) -> is_hexdigit c = true) -> hexcount s = String.length s.
Proof.
  induction s as [|c s IH]; intros H; [reflexivity|].
  cbn [hexcount String.length].
  rewrite (H c (or_introl eq_refl)), IH; [reflexivity|].
  intros c' Hc'. apply H. now right.
Qed.

(** The claim that an odd length or a character that is no hex digit in the
    cleaned string always ends in an error fails, whichever way the cleaned
    string is read.  Read as what the three replacements leave, it fails on
    a lone tab: the replacements keep it, the cleaned string has length one
    and holds no digit, and decoding returns the empty byte sequence.  Read
    as the specification words it (whitespace and "0x" in front stripped),
    it fails on "AB0xCD": the x stays in that cleaned string, and decoding
    returns the bytes AB CD. *)
Lemma hex_to_bytes_accepts_tab_and_inner_0x :
  (AES.clean (String tab EmptyString) = String tab EmptyString
   /\ Nat.odd (String.length (AES.clean (String tab EmptyString))) = true
   /\ (exists c, In c (chars (AES.clean (String tab EmptyString)))
                 /\ Py.hexval c = None)
   /\ AES.hex_to_bytes (String tab EmptyString) = Ok []
   /\ ~ raises (AES.hex_to_bytes (String tab EmptyString)))
  /\ (cleaned_as_specified "AB0xCD" = "AB0xCD"
      /\ (exists c, In c (chars (cleaned_as_specified "AB0xCD"))
                    /\ Py.hexval c = None)
      /\ AES.hex_to_bytes "AB0xCD" = Ok [171; 205]
      /\ ~ raises (AES.hex_to_bytes "AB0xCD")).
Proof.
  split.
  - split; [reflexivity|]. split; [reflexivity|].
    split; [|split; [reflexivity | intros []]].
    exists tab. split; [left; reflexivity | reflexivity].
  - split; [reflexivity|].
    split; [|split; [reflexivity | intros []]].
    exists "x"%char. split; [|reflexivity].
    vm_compute. right. right. right. left. reflexivity.
Qed.

(** C9 (as amended): [hex_to_bytes] removes the spaces, the occurrences of
    "0x" and the newlines, and decodes what is left; it fails with
    [ValueError] whenever what is left holds a character that is neither a
    hex digit nor ASCII whitespace (the letter g, say), or holds an odd
    number of hex digits -- hence also whenever it holds no whitespace and
    has an odd length or a character that is no hex digit. *)
Theorem hex_to_bytes_decode_error (s : string) :
  AES.hex_to_bytes s = Py.fromhex (AES.clean s)
  /\ ((exists c, In c (chars (AES.clean s))
                 /\ Py.hexval c = None /\ Py.isspace c = false) ->
      AES.hex_to_bytes s = Raise ValueError)
  /\ (Nat.odd (hexcount (AES.clean s)) = true ->
      AES.hex_to_bytes s = Raise ValueError)
  /\ ((forall c, In c (chars (AES.clean s)) -> Py.isspace c = false) ->
      Nat.odd (String.length (AES.clean s)) = true
      \/ (exists c, In c (chars (AES.clean s)) /\ Py.hexval c = None) ->
      AES.hex_to_bytes s = Raise ValueError).
Proof.
  split; [reflexivity|]. unfold AES.hex_to_bytes.
  assert (Hbad : (exists c, In c (chars (AES.clean s))
                            /\ Py.hexval c = None /\ Py.isspace c = false) ->
                 Py.fromhex (AES.clean s) = Raise ValueError).
  { intros (c & Hin & Hv & Hs). exact (fromhex_bad_char _ c Hin Hv Hs). }
  split; [exact Hbad|]. split; [apply fromhex_odd_digits|].
  intros Hns [Hodd | (c & Hin & Hv)].
  - destruct (fromhex_result (AES.clean s)) as [(l & Hl) | H]; [|exact H].
    destruct (fromhex_Ok_shape _ l Hl) as [_ Hc].
    apply fromhex_odd_digits. rewrite hexcount_all_digits; [exact Hodd|].
    intros c Hin. unfold is_hexdigit.
    destruct (Py.hexval c) eqn:Ev; [reflexivity|].
    specialize (Hc c Hin Ev). specialize (Hns c Hin). congruence.
  - apply Hbad. exists c. auto.
Qed.

Lemma hex_to_bytes_decode_error_witness :
  (exists c, In c (chars (AES.clean "0x00 0g")) /\ Py.hexval c = None
             /\ Py.isspace c = false)
  /\ AES.hex_to_bytes "0x00 0g" = Raise ValueError.
Proof.
  assert (H : exists c, In c (chars (AES.clean "0x00 0g")) /\ Py.hexval c = None
                        /\ Py.isspace c = false).
  { exists "g"%char. split; [|split; reflexivity].
    vm_compute. right. right. right. left. reflexivity. }
  split; [exact H|].
  exact (proj1 (proj2 (hex_to_bytes_decode_error "0x00 0g")) H).
Defined.

(** The examples of the specification: a key with the letter g, and a
    string of odd length. *)
Example hex_to_bytes_letter_g :
  AES.hex_to_bytes "000102030405060708090a0b0c0d0e0g" = Raise ValueError.
Proof. reflexivity. Qed.

Example hex_to_bytes_odd_length : AES.hex_to_bytes "abc" = Raise ValueError.
Proof. reflexivity. Qed.

Example hex_to_bytes_prefix_and_spaces :
  AES.hex_to_bytes "0x00 11 22" = Ok [0; 17; 34].
Proof. reflexivity. Qed.

(* ================================================================== *)
(** * What the three replacements delete *)

Lemma remove_0x_two (c e : ascii) (s : string) :
  Py.remove_0x (String c (String e s))
  = if Ascii.eqb c "0" && Ascii.eqb e "x" then Py.remove_0x s
    else String c (Py.remove_0x (String e s)).
Proof. reflexivity. Qed.

Lemma remove_char_app (c : ascii) (u v : string) :
  Py.remove_char c (u ++ v) = (Py.remove_char c u ++ Py.remove_char c v)%string.
Proof.
  induction u as [|d u IH]; [reflexivity|].
  cbn [append Py.remove_char]. rewrite IH. now destruct (Ascii.eqb d c).
Qed.

Lemma remove_char_absent (c : ascii) (s : string) :
  ~ In c (chars (Py.remove_char c s)).
Proof.
  induction s as [|d s IH]; [intros []|].
  cbn [Py.remove_char]. destruct (Ascii.eqb_spec d c) as [E | E]; [exact IH|].
  intros [H | H]; [now apply E | now apply IH].
Qed.

Lemma remove_char_subset (c d : ascii) (s : string) :
  In c (chars (Py.remove_char d s)) -> In c (chars s).
Proof.
  induction s as [|e s IH]; [intros []|].
  cbn [Py.remove_char]. destruct (Ascii.eqb e d).
  - intros H. right. now apply IH.
  - intros [H | H]; [now left | right; now apply IH].
Qed.

Lemma remove_0x_subset (c : ascii) (s : string) :
  In c (chars (Py.remove_0x s)) -> In c (chars s).
Proof.
  induction s as [| d | d e s IHs IHes] using string_ind2.
  - intros [].
  - trivial.
  - rewrite remove_0x_two. destruct (Ascii.eqb d "0" && Ascii.eqb e "x").
    + intros H. right. right. now apply IHs.
    + intros [H | H]; [now left | right; now apply IHes].
Qed.

Lemma count_remove_char (c d : ascii) (s : string) :
  c <> d -> count_char c (Py.remove_char d s) = count_char c s.
Proof.
  intros Hne. induction s as [|e s IH]; [reflexivity|].
  cbn [Py.remove_char count_char]. destruct (Ascii.eqb_spec e d) as [-> | E].
  - rewrite IH. destruct (Ascii.eqb_spec d c) as [-> | _]; [now elim Hne | reflexivity].
  - cbn [count_char]. now rewrite IH.
Qed.

Lemma count_remove_0x (c : ascii) (s : string) :
  c <> "0"%char -> c <> "x"%char -> count_char c (Py.remove_0x s) = count_char c s.
Proof.
  intros H0 Hx. induction s as [| d | d e s IHs IHes] using string_ind2.
  - reflexivity.
  - reflexivity.
  - rewrite remove_0x_two.
    destruct (Ascii.eqb_spec d "0") as [-> | Ed]; cbn [andb].
    + destruct (Ascii.eqb_spec e "x") as [-> | Ee].
      * rewrite IHs. cbn [count_char].
        destruct (Ascii.eqb_spec "0" c) as [<- | _]; [now elim H0|].
        destruct (Ascii.eqb_spec "x" c) as [<- | _]; [now elim Hx | reflexivity].
      * change (count_char c (String "0" (Py.remove_0x (String e s))))
          with ((if Ascii.eqb "0" c then 1 else 0)
                + count_char c (Py.remove_0x (String e s)))%nat.
        now rewrite IHes.
    + change (count_char c (String d (Py.remove_0x (String e s))))
        with ((if Ascii.eqb d c then 1 else 0)
              + count_char c (Py.remove_0x (String e s)))%nat.
      now rewrite IHes.
Qed.

(** An occurrence of "0x" is deleted wherever it stands ... *)
Lemma remove_0x_app_0x (u v : string) :
  Py.remove_0x (u ++ String "0" (String "x" v))
  = (Py.remove_0x u ++ Py.remove_0x v)%string.
Proof.
  induction u as [| c | c e u IHu IHeu] using string_ind2.
  - reflexivity.
  - cbn [append]. rewrite remove_0x_two.
    replace (Ascii.eqb c "0" && Ascii.eqb "0" "x") with false
      by (now rewrite andb_false_r).
    reflexivity.
  - cbn [append]. rewrite !remove_0x_two.
    destruct (Ascii.eqb c "0" && Ascii.eqb e "x"); [exact IHu|].
    cbn [append] in IHeu. now rewrite IHeu.
Qed.

(** ... and a character other than 0 and x separates what is scanned. *)
Lemma remove_0x_app_sep (d : ascii) (u v : string) :
  d <> "0"%char -> d <> "x"%char ->
  Py.remove_0x (u ++ String d v)
  = (Py.remove_0x u ++ String d (Py.remove_0x v))%string.
Proof.
  intros H0 Hx.
  assert (Hd : Py.remove_0x (String d v) = String d (Py.remove_0x v)).
  { destruct v as [|e v]; [reflexivity|]. rewrite remove_0x_two.
    now replace (Ascii.eqb d "0") with false
      by (symmetry; now apply Ascii.eqb_neq). }
  induction u as [| c | c e u IHu IHeu] using string_ind2.
  - exact Hd.
  - cbn [append]. rewrite remove_0x_two.
    replace (Ascii.eqb d "x") with false by (symmetry; now apply Ascii.eqb_neq).
    rewrite andb_false_r. now rewrite Hd.
  - cbn [append]. rewrite !remove_0x_two.
    destruct (Ascii.eqb c "0" && Ascii.eqb e "x"); [exact IHu|].
    cbn [append] in IHeu. now rewrite IHeu.
Qed.

Lemma clean_app_0x (u v : string) :
  AES.clean (u ++ String "0" (String "x" v)) = (AES.clean u ++ AES.clean v)%string.
Proof.
  unfold AES.clean. rewrite remove_char_app.
  change (Py.remove_char " " (String "0" (String "x" v)))
    with (String "0" (String "x" (Py.remove_char " " v))).
  rewrite remove_0x_app_0x. apply remove_char_app.
Qed.

Lemma clean_app_tab (u v : string) :
  AES.clean (u ++ String tab v) = (AES.clean u ++ String tab (AES.clean v))%string.
Proof.
  unfold AES.clean. rewrite remove_char_app.
  change (Py.remove_char " " (String tab v))
    with (String tab (Py.remove_char " " v)).
  rewrite remove_0x_app_sep by discriminate.
  now rewrite remove_char_app.
Qed.

Lemma clean_absent (s : string) :
  ~ In " "%char (chars (AES.clean s)) /\ ~ In "010"%char (chars (AES.clean s)).
Proof.
  unfold AES.clean. split.
  - intros H. apply remove_char_subset, remove_0x_subset in H.
    now apply remove_char_absent in H.
  - apply remove_char_absent.
Qed.

Lemma clean_keeps (c : ascii) (s : string) :
  c <> " "%char -> c <> "010"%char -> c <> "0"%char -> c <> "x"%char ->
  count_char c (AES.clean s) = count_char c s.
Proof.
  intros Hs Hn H0 Hx. unfold AES.clean.
  now rewrite count_remove_char, count_remove_0x, count_remove_char.
Qed.

(** Decoding goes on after what has been decoded. *)
Lemma fromhex_app (u v : string) (l : list Z) :
  Py.fromhex u = Ok l ->
  Py.fromhex (u ++ v) = (l' <- Py.fromhex v ;; Ok (l ++ l')).
Proof.
  revert l. induction u as [| c | c d u IHu IHdu] using string_ind2; intros l.
  - intros [= <-]. cbn [append app]. now destruct (Py.fromhex v).
  - rewrite fromhex_one. destruct (Py.isspace c) eqn:Ec; [|discriminate].
    intros [= <-]. cbn [append app].
    assert (Hv : Py.fromhex (String c v) = Py.fromhex v).
    { destruct v as [|e v]; [rewrite fromhex_one | rewrite fromhex_two];
        now rewrite Ec. }
    rewrite Hv. now destruct (Py.fromhex v).
  - rewrite fromhex_two. cbn [append]. rewrite fromhex_two.
    destruct (Py.isspace c).
    + intros H. cbn [append] in IHdu. now apply IHdu.
    + destruct (Py.hexval c) as [top|]; [|discriminate].
      destruct (Py.hexval d) as [bot|]; [|discriminate].
      intros H. apply bind_Ok in H. destruct H as (tl & Htl & [= <-]).
      rewrite (IHu tl Htl). now destruct (Py.fromhex v).
Qed.

(** The claim that a tab makes decoding fail is false on a tab between two
    pairs of digits: the replacements leave it in place and the decoder
    skips it. *)
Lemma hex_to_bytes_tab_between_pairs :
  In tab (chars (AES.clean ("AB" ++ String tab "CD")))
  /\ AES.hex_to_bytes ("AB" ++ String tab "CD") = Ok [171; 205]
  /\ ~ raises (AES.hex_to_bytes ("AB" ++ String tab "CD")).
Proof.
  split; [|split; [reflexivity | intros []]].
  vm_compute. right. right. left. reflexivity.
Qed.

(** C10 (as amended): [hex_to_bytes] deletes every space, every newline and
    every occurrence of "0x", wherever they stand, not only in front: "0x"
    inside the input leaves the digits around it to be decoded together
    ("AB0xCD" is decoded as "ABCD").  A tab is not deleted by these
    replacements; the decoder skips it where it stands between two complete
    pairs of digits, and fails with [ValueError] where it follows the first
    digit of a pair. *)
Theorem hex_to_bytes_cleaning (u v : string) :
  (~ In " "%char (chars (AES.clean u)) /\ ~ In "010"%char (chars (AES.clean u)))
  /\ AES.clean (u ++ String "0" (String "x" v)) = (AES.clean u ++ AES.clean v)%string
  /\ AES.hex_to_bytes "AB0xCD" = Ok [171; 205]
  /\ AES.hex_to_bytes "AB0xCD" = AES.hex_to_bytes "ABCD"
  /\ count_char tab (AES.clean u) = count_char tab u
  /\ (forall l, AES.hex_to_bytes u = Ok l ->
        AES.hex_to_bytes (u ++ String tab v)
        = (l' <- AES.hex_to_bytes v ;; Ok (l ++ l')))
  /\ (forall c, is_hexdigit c = true ->
        AES.hex_to_bytes (String c (String tab v)) = Raise ValueError).
Proof.
  split; [apply clean_absent|]. split; [apply clean_app_0x|].
  split; [reflexivity|]. split; [reflexivity|].
  split; [apply clean_keeps; discriminate|]. split.
  - intros l Hl. unfold AES.hex_to_bytes in *. rewrite clean_app_tab.
    rewrite (fromhex_app _ _ l Hl).
    assert (Ht : Py.fromhex (String tab (AES.clean v)) = Py.fromhex (AES.clean v)).
    { destruct (AES.clean v) as [|e w]; [rewrite fromhex_one | rewrite fromhex_two];
        reflexivity. }
    now rewrite Ht.
  - intros c Hc. unfold AES.hex_to_bytes.
    change (String c (String tab v)) with (String c EmptyString ++ String tab v)%string.
    rewrite clean_app_tab.
    assert (Hcl : AES.clean (String c EmptyString) = String c EmptyString).
    { unfold is_hexdigit in Hc. unfold AES.clean. cbn [Py.remove_char].
      destruct (Ascii.eqb_spec c " ") as [-> | _]; [discriminate Hc|].
      cbn [Py.remove_0x Py.remove_char].
      destruct (Ascii.eqb_spec c "010") as [-> | _]; [discriminate Hc | reflexivity]. }
    rewrite Hcl. cbn [append]. rewrite fromhex_two.
    unfold is_hexdigit in Hc.
    destruct (Py.isspace c) eqn:Es.
    + rewrite (isspace_not_hexdigit c Es) in Hc. discriminate Hc.
    + now destruct (Py.hexval c).
Qed.

Lemma hex_to_bytes_cleaning_witness :
  AES.hex_to_bytes ("AB" ++ String tab "CD")
  = (l' <- AES.hex_to_bytes "CD" ;; Ok ([171] ++ l'))
  /\ AES.hex_to_bytes (String "A" (String tab "CD")) = Raise ValueError.
Proof.
  destruct (hex_to_bytes_cleaning "AB" "CD") as (_ & _ & _ & _ & _ & Hskip & Hsplit).
  split; [apply Hskip; reflexivity | apply Hsplit; reflexivity].
Defined.

(** A tab between the two digits of a pair. *)
Example hex_to_bytes_tab_inside_pair :
  AES.hex_to_bytes ("A" ++ String tab "B") = Raise ValueError.
Proof. reflexivity. Qed.

(** A newline is deleted after "0x" has been looked for. *)
Example hex_to_bytes_newline_inside_0x :
  AES.clean ("0" ++ String "010" "x") = "0x"
  /\ AES.hex_to_bytes ("0" ++ String "010" "x") = Raise ValueError.
Proof. split; reflexivity. Qed.
